(** * jest-screenshot-odiff: the image comparator adapter, the verdict engine
    and the snapshot lifecycle of [toMatchImageSnapshot].

    The development embeds [src/odiff-sync.ts] ([compare]) and the matcher
    module ([checkImages], [toMatchImageSnapshot]) and proves the properties
    the specification states about them. *)

From Stdlib Require Import ZArith String Ascii List Bool Lia.
From Stdlib Require Import SpecFloat Decimal DecimalString DecimalPos.
From stdpp Require Import gmap strings list.

Open Scope string_scope.
Open Scope Z_scope.

(** ** JavaScript numbers

    A JavaScript number is an IEEE 754 binary64 value.  [spec_float] is the
    Standard Library's specification of those values (a number is a zero,
    an infinity, NaN, or a mantissa and an exponent in canonical form);
    every operation used below is the specified, correctly rounded one, and
    the numbers the model builds are canonical. *)

Module JsNumber.

Definition prec : Z := 53.
Definition emax : Z := 1024.

Definition number : Type := spec_float.

Definition NaN : number := S754_nan.
Definition Infinity : number := S754_infinity false.

(** The double nearest to an integer (ties to even). *)
Definition of_Z (z : Z) : number := binary_normalize prec emax z 0 false.

(** The double nearest to [(-1)^sign * num / den]. *)
Definition of_ratio (sign : bool) (num den : positive) : number :=
  SFdiv prec emax (S754_finite sign num 0) (S754_finite false den 0).

Definition zero : number := S754_zero false.
Definition one : number := of_Z 1.
Definition hundred : number := of_Z 100.

Definition add (x y : number) : number := SFadd prec emax x y.
Definition mul (x y : number) : number := SFmul prec emax x y.
Definition div (x y : number) : number := SFdiv prec emax x y.

(** [x > y]: false as soon as one side is NaN. *)
Definition gt (x y : number) : bool := SFltb y x.

(** [x >= y]. *)
Definition ge (x y : number) : bool := SFleb y x.

(** ToBoolean on a number: [0], [-0] and [NaN] are falsy. *)
Definition truthy (x : number) : bool :=
  match x with
  | S754_zero _ | S754_nan => false
  | _ => true
  end.

Definition is_nan (x : number) : bool :=
  match x with
  | S754_nan => true
  | _ => false
  end.

(** The mathematical integers among the doubles: the value [m * 2^e] is
    one when the exponent is non-negative or the low [-e] bits of the
    mantissa are clear. *)
Definition is_integer (x : number) : bool :=
  match x with
  | S754_zero _ => true
  | S754_finite _ m e =>
      (0 <=? e) || (Z.land (Zpos m) (Z.ones (- e)) =? 0)
  | _ => false
  end.

(** A non-negative integer, as the data model asks of a differing-pixel
    count and of an absolute threshold. *)
Definition is_nonneg_integer (x : number) : bool :=
  is_integer x && ge x zero.

End JsNumber.

Import JsNumber.

(** ** JavaScript strings

    Strings are sequences of code units; [string] holds the code units
    below 256, which covers everything the comparison engine prints. *)

Module JsString.

(** WhiteSpace and LineTerminator code units (TAB, LF, VT, FF, CR, SP,
    NBSP), the ones [trim], [parseInt] and [parseFloat] skip. *)
Definition isWhiteSpace (c : ascii) : bool :=
  let n := N_of_ascii c in
  ((9 <=? n) && (n <=? 13) || (n =? 32) || (n =? 160))%N.

Fixpoint trimStart (s : string) : string :=
  match s with
  | String c r => if isWhiteSpace c then trimStart r else s
  | EmptyString => s
  end.

(** [rev_onto s acc] is the reverse of [s] followed by [acc]. *)
Fixpoint rev_onto (s acc : string) : string :=
  match s with
  | String c r => rev_onto r (String c acc)
  | EmptyString => acc
  end.

Definition reverse (s : string) : string := rev_onto s EmptyString.

Definition trimEnd (s : string) : string := reverse (trimStart (reverse s)).

(** [String.prototype.trim]. *)
Definition trim (s : string) : string := trimEnd (trimStart s).

(** [s.split(sep)] for a one-character separator: the fields between the
    separators, always at least one. *)
Fixpoint split_from (sep : ascii) (field : string) (s : string) : list string :=
  match s with
  | EmptyString => [reverse field]
  | String c r =>
      if Ascii.eqb c sep then reverse field :: split_from sep EmptyString r
      else split_from sep (String c field) r
  end.

Definition split (sep : ascii) (s : string) : list string :=
  split_from sep EmptyString s.

(** [arr.join(sep)]: [null] and [undefined] elements print as nothing. *)
Fixpoint join (sep : string) (arr : list (option string)) : string :=
  match arr with
  | [] => EmptyString
  | [x] => default EmptyString x
  | x :: rest => default EmptyString x ++ sep ++ join sep rest
  end.

(** Template-literal rendering of an integer. *)
Definition of_Z (z : Z) : string := NilZero.string_of_int (Z.to_int z).

(** Does [s] start with [p]? *)
Fixpoint startsWith (p s : string) : bool :=
  match p, s with
  | EmptyString, _ => true
  | String a p', String b s' => Ascii.eqb a b && startsWith p' s'
  | String _ _, EmptyString => false
  end.


End JsString.

(** ** [parseInt] and [parseFloat] *)

Module JsParse.

Import JsString.

(** The value of a digit in a radix, when it is one. *)
Definition digitValue (radix : Z) (c : ascii) : option Z :=
  let n := Z.of_N (N_of_ascii c) in
  let v :=
    if (48 <=? n) && (n <=? 57) then Some (n - 48)
    else if (97 <=? n) && (n <=? 122) then Some (n - 87)
    else if (65 <=? n) && (n <=? 90) then Some (n - 55)
    else None in
  match v with
  | Some d => if d <? radix then Some d else None
  | None => None
  end.

(** The longest prefix of [s] made of digits: its value with [acc] as the
    digits read so far, the number of digits, and the rest of the string. *)
Fixpoint digits (radix : Z) (s : string) (acc : Z) (count : nat) : Z * nat * string :=
  match s with
  | String c r =>
      match digitValue radix c with
      | Some d => digits radix r (acc * radix + d) (S count)
      | None => (acc, count, s)
      end
  | EmptyString => (acc, count, s)
  end.

(** A leading sign: whether it is a minus, and the rest. *)
Definition sign (s : string) : bool * string :=
  match s with
  | String "-" r => (true, r)
  | String "+" r => (false, r)
  | _ => (false, s)
  end.

(** The double of a signed magnitude [m * 10^e]. *)
Definition decimal (neg : bool) (m e : Z) : number :=
  match m with
  | Zpos p =>
      if 0 <=? e then of_ratio neg (p * Z.to_pos (10 ^ e)) 1
      else of_ratio neg p (Z.to_pos (10 ^ (- e)))
  | _ => S754_zero neg
  end.

(** [parseInt(s)] with no radix argument. *)
Definition parseInt (s : string) : number :=
  let '(neg, s1) := sign (trimStart s) in
  let '(radix, s2) :=
    match s1 with
    | String "0" (String "x" r) | String "0" (String "X" r) => (16, r)
    | _ => (10, s1)
    end in
  let '(v, count, _) := digits radix s2 0 O in
  match count with
  | O => NaN
  | S _ => decimal neg v 0
  end.

(** An exponent part [e<sign><digits>], when [s] starts with a whole one. *)
Definition exponentPart (s : string) : Z :=
  match s with
  | String "e" r | String "E" r =>
      let '(neg, r1) := sign r in
      let '(v, count, _) := digits 10 r1 0 O in
      match count with
      | O => 0
      | S _ => if neg then - v else v
      end
  | _ => 0
  end.

(** [parseFloat(s)]: the longest prefix that is a decimal literal. *)
Definition parseFloat (s : string) : number :=
  let '(neg, s1) := sign (trimStart s) in
  if startsWith "Infinity" s1 then S754_infinity neg
  else
    let '(ip, icount, s2) := digits 10 s1 0 O in
    let '(m, fcount, s3) :=
      match s2 with
      | String "." r =>
          let '(m, fcount, s3) := digits 10 r ip O in
          match icount, fcount with
          | O, O => (ip, O, s2)
          | _, _ => (m, fcount, s3)
          end
      | _ => (ip, O, s2)
      end in
    match icount, fcount with
    | O, O => NaN
    | _, _ => decimal neg m (exponentPart s3 - Z.of_nat fcount)
    end.

End JsParse.

Import JsString JsParse.

(** ** Errors, the world and the effects of a call *)

(** A thrown value.  [status] and [output] are the fields [execSync] sets
    on the error of a child process that failed; they are absent on any
    other error. *)
Record JsError := {
  error_message : string;
  status : option Z;
  output : option (list (option string)) }.

(** [new Error(msg)]. *)
Definition Error (msg : string) : JsError :=
  {| error_message := msg; status := None; output := None |}.

(** Modelled from the spec: the snapshot state of the calling context,
    whose type ([./jest]) is not among the sources.  It is the object every
    matcher call of a test file shares: the update mode, the occurrence
    counter of each test name, and the totals of added and updated
    snapshots.  The counters and totals are the small integers Jest keeps
    there, on which the arithmetic of doubles is exact. *)
Record SnapshotState := {
  _updateSnapshot : string;
  _counters : gmap string Z;
  added : Z;
  updated : Z }.

(** What a call does to the file system and to child processes, in order. *)
Inductive Effect :=
| ExistsSync (path : string)
| Mkdirp (dir : string)
| MkdtempSync (dir : string)
| WriteFileSync (path data : string)
| CopyFileSync (src dest : string)
| ExecSync (command : string).

(** The state a call runs in: the files (path to contents), the effects
    performed so far, what was written to the error channel, and the
    shared snapshot state. *)
Record World := {
  files : gmap string string;
  effects : list Effect;
  stderr : list string;
  snapshotState : SnapshotState }.

Definition set_files (f : gmap string string) (w : World) : World :=
  {| files := f; effects := effects w; stderr := stderr w;
     snapshotState := snapshotState w |}.

Definition add_effect (e : Effect) (w : World) : World :=
  {| files := files w; effects := effects w ++ [e]; stderr := stderr w;
     snapshotState := snapshotState w |}.

Definition add_stderr (s : string) (w : World) : World :=
  {| files := files w; effects := effects w; stderr := stderr w ++ [s];
     snapshotState := snapshotState w |}.

Definition set_snapshotState (st : SnapshotState) (w : World) : World :=
  {| files := files w; effects := effects w; stderr := stderr w;
     snapshotState := st |}.

(** [if (text) process.stderr.write(text)]. *)
Definition forward_stderr (text : string) (w : World) : World :=
  match text with
  | EmptyString => w
  | String _ _ => add_stderr text w
  end.

(** How a computation ends: with a value, or by throwing. *)
Inductive Completion (A : Type) :=
| Normal (a : A)
| Throw (e : JsError).

Arguments Normal {A} a.
Arguments Throw {A} e.

(** Computations over the world that may throw. *)
Definition M (A : Type) : Type := World -> Completion A * World.

Definition ret {A} (a : A) : M A := fun w => (Normal a, w).

Definition throw {A} (e : JsError) : M A := fun w => (Throw e, w).

Definition bind {A B} (m : M A) (k : A -> M B) : M B :=
  fun w =>
    match m w with
    | (Normal a, w') => k a w'
    | (Throw e, w') => (Throw e, w')
    end.

(** [try { body } catch (e) { handler }]. *)
Definition try_catch {A} (body : M A) (handler : JsError -> M A) : M A :=
  fun w =>
    match body w with
    | (Normal a, w') => (Normal a, w')
    | (Throw e, w') => handler e w'
    end.

Notation "x <- m ;; k" := (bind m (fun x => k))
  (at level 100, m at next level, right associativity).
Notation "m ;; k" := (bind m (fun _ => k))
  (at level 100, right associativity).

Definition modify (f : World -> World) : M unit := fun w => (Normal tt, f w).

(** ** The data of the two modules *)

Inductive Reason := layout_diff | pixel_diff.

(** [OdiffReturnType]; [compare] sets both numbers on every result. *)
Record OdiffReturnType := {
  match_ : bool;
  reason : option Reason;
  diffCount : number;
  diffPercentage : number }.

(** The options [compare] reads. *)
Record OdiffOptions := {
  antialiasing : bool;
  diffColor : option string;
  threshold : option number;
  outputDiffMask : bool }.

(** Modelled from the spec: [JestScreenshotConfiguration], whose
    declaration ([./config]) is not among the sources, with the fields the
    matcher reads.  An option is [None] when the field is absent, and for
    the two pixel thresholds whenever [typeof] is not ["number"]. *)
Record JestScreenshotConfiguration := {
  snapshotsDir : option string;
  reportDir : option string;
  noReport : bool;
  colorThreshold : option number;
  detectAntialiasing : bool;
  pixelThresholdAbsolute : option number;
  pixelThresholdRelative : option number }.

(** [ImageMatcherResult]; [MatcherResult] ([./jest]) is its first two
    fields.  The message is a producer, run only when the text is asked
    for. *)
Record ImageMatcherResult := {
  pass : bool;
  message : option (unit -> string);
  changedRelative : option number;
  changedPixels : option number }.

Record ToMatchImageSnapshotParameters := {
  path : option string }.

(** Modelled from the spec: what the matcher reads of [this] once the
    type guard of [./jest] (not among the sources) has accepted it; the
    snapshot state of [this] is the one of the world. *)
Record JestTestConfiguration := {
  testPath : string;
  currentTestName : string;
  isNot : bool }.

(** The object written to [info.json]. *)
Module Info.
Record t := {
  testName : string;
  message : string;
  changedRelative : option number;
  changedPixels : option number;
  testFileName : string;
  snapshotNumber : Z;
  receivedPath : string;
  diffPath : string;
  snapshotPath : string }.
End Info.

(** ** The host

    What the two modules import and do not define: the helpers of
    [./jest] and [./filenames], Node's [path], [os], [process] and
    [child_process], number formatting and [JSON.stringify]. *)
Class Host := {
  ThisValue : Type;
  (** The type guard of [./jest]: the view of [this] when it is a Jest
      test configuration. *)
  isJestTestConfiguration : ThisValue -> option JestTestConfiguration;
  getSnapshotPath : string -> string -> SnapshotState -> option string -> string;
  getReportPath : string -> string -> SnapshotState -> option string -> string;
  getReportDir : option string -> string;
  path_join : string -> string -> string;
  path_dirname : string -> string;
  path_relative : string -> string -> string;
  path_resolve : list string -> string;
  process_cwd : string;
  os_tmpdir : string;
  os_EOL : string;
  (** [require.resolve]: the resolved file, or the error it throws. *)
  require_resolve : string -> JsError + string;
  (** [execSync]: the standard output of a command that exits with 0, or
      the error thrown for any other end, and the files it leaves. *)
  execSync : string -> World -> (JsError + string) * gmap string string;
  (** What the child of that run writes to its standard error. *)
  execSync_stderr : string -> World -> string;
  (** The six characters [mkdtempSync] appends to its prefix. *)
  mkdtemp_suffix : string -> World -> string;
  (** Whether chalk colours its output. *)
  chalk_enabled : bool;
  Number_toString : number -> string;
  Number_toFixed : number -> Z -> string;
  JSON_stringify : Info.t -> string }.

(** Characters that a string literal cannot hold as they are. *)
Definition dquote : string := String "034"%char EmptyString.
Definition newline : string := String "010"%char EmptyString.
Definition escape : string := String "027"%char EmptyString.

Section Model.

Context `{Host}.

(** *** Primitive effects *)

Definition stderr_write (s : string) : M unit := modify (add_stderr s).

Definition existsSync (p : string) : M bool :=
  fun w => (Normal (bool_decide (is_Some (files w !! p))), add_effect (ExistsSync p) w).

Definition mkdirp (dir : string) : M unit := modify (add_effect (Mkdirp dir)).

Definition writeFileSync (p data : string) : M unit :=
  modify (fun w => add_effect (WriteFileSync p data) (set_files (<[p := data]> (files w)) w)).

(** Copying a file that is not there throws Node's [ENOENT] error, whose
    message names the source and the destination. *)
Definition copyFileSync (src dest : string) : M unit :=
  fun w =>
    let w' := add_effect (CopyFileSync src dest) w in
    match files w !! src with
    | Some data => (Normal tt, set_files (<[dest := data]> (files w)) w')
    | None =>
        (Throw (Error ("ENOENT: no such file or directory, copyfile '" ++ src
                       ++ "' -> '" ++ dest ++ "'")), w')
    end.

Definition mkdtempSync (prefix : string) : M string :=
  fun w =>
    let dir := prefix ++ mkdtemp_suffix prefix w in
    (Normal dir, add_effect (MkdtempSync dir) w).

(** [execSync(command, { encoding: 'utf8' })].  No [stdio] option is
    given, so once the child has ended Node writes what the child wrote to
    its standard error, when it wrote anything, to the error channel of
    the process. *)
Definition exec (command : string) : M string :=
  fun w =>
    let '(r, f) := execSync command w in
    let w' := forward_stderr (execSync_stderr command w)
                (add_effect (ExecSync command) (set_files f w)) in
    match r with
    | inr out => (Normal out, w')
    | inl e => (Throw e, w')
    end.

Definition resolve (request : string) : M string :=
  match require_resolve request with
  | inr file => ret file
  | inl e => throw e
  end.

Definition get_snapshotState : M SnapshotState :=
  fun w => (Normal (snapshotState w), w).

(** *** chalk *)

Definition chalk_red (s : string) : string :=
  if chalk_enabled then escape ++ "[31m" ++ s ++ escape ++ "[39m" else s.

Definition chalk_green (s : string) : string :=
  if chalk_enabled then escape ++ "[32m" ++ s ++ escape ++ "[39m" else s.

(** *** odiff-sync.ts *)

(** The flags [compare] passes to the binary. *)
Definition odiffFlags (options : OdiffOptions) : list string :=
  ["--parsable-stdout"]
  ++ (if antialiasing options then ["--antialiasing"] else [])
  ++ (match diffColor options with
      | Some (String c r) => ["--diff-color=" ++ String c r]
      | _ => []
      end)
  ++ (match threshold options with
      | Some t => if truthy t then ["--threshold=" ++ Number_toString t] else []
      | None => []
      end)
  ++ (if outputDiffMask options then ["--diff-mask"] else []).

(** The body of the [try]: exit code 0 means the images are identical. *)
Definition compare_try (a b diff : string) (options : OdiffOptions) : M OdiffReturnType :=
  odiffPath <- resolve "odiff-bin" ;;
  let odiffBinPath := path_resolve [odiffPath; ".."; "bin"; "odiff"] in
  let args := odiffFlags options in
  exec (odiffBinPath ++ " " ++ a ++ " " ++ b ++ " " ++ diff ++ " " ++ join " " (map Some args)) ;;
  ret {| match_ := true; reason := None; diffCount := zero; diffPercentage := zero |}.

(** The result for the two exit codes the binary reserves for a
    difference; [None] for every other error. *)
Definition expectedDiff (e : JsError) : option OdiffReturnType :=
  match status e with
  | Some s =>
      if s =? 0 then None
      else if s =? 21 then
        Some {| match_ := false; reason := Some layout_diff;
                diffCount := zero; diffPercentage := zero |}
      else if s =? 22 then
        let fields := split ";" (trim (join EmptyString (default [] (output e)))) in
        let count := default "0" (fields !! 0%nat) in
        let percentage := default "0" (fields !! 1%nat) in
        Some {| match_ := false; reason := Some pixel_diff;
                diffCount := parseInt count;
                diffPercentage := div (parseFloat percentage) hundred |}
      else None
  | None => None
  end.

(** The [catch] block. *)
Definition compare_catch (e : JsError) : M OdiffReturnType :=
  match expectedDiff e with
  | Some r => ret r
  | None =>
      stderr_write ("Error executing odiff image comparison in " ++ dquote
                    ++ "@craft.co/jest-screenshot-odiff" ++ dquote) ;;
      match status e with
      | Some s => if s =? 0 then ret tt else stderr_write ("Exit code: " ++ JsString.of_Z s)
      | None => ret tt
      end ;;
      match output e with
      | Some o => stderr_write (join os_EOL o)
      | None => ret tt
      end ;;
      throw e
  end.

Definition compare (a b diff : string) (options : OdiffOptions) : M OdiffReturnType :=
  try_catch (compare_try a b diff options) compare_catch.

(** *** The matcher module *)

(** [typeof limit === "number" && value > limit]: the limit when the test
    holds. *)
Definition exceeded (value : number) (limit : option number) : option number :=
  match limit with
  | Some l => if gt value l then Some l else None
  | None => None
  end.

(** The first line of every failure explanation of [checkImages]. *)
Definition preamble (snapshotNumber : Z) : string :=
  let expected := "stored snapshot " ++ JsString.of_Z snapshotNumber in
  chalk_red "Received value" ++ " does not match " ++ chalk_green expected ++ ".".

(** The result of the first [if]: too many pixels changed. *)
Definition absoluteFailure (snapshotNumber : Z) (absolute : number)
    (outcome : OdiffReturnType) : ImageMatcherResult :=
  {| pass := false;
     message := Some (fun _ =>
       preamble snapshotNumber ++ newline ++ newline
       ++ "Expected less than "
       ++ chalk_green (Number_toString absolute ++ " pixels")
       ++ " to have changed, but "
       ++ chalk_red (Number_toString (diffCount outcome) ++ " pixels")
       ++ " changed.");
     changedRelative := Some (diffPercentage outcome);
     changedPixels := Some (diffCount outcome) |}.

(** The result of the second [if]: too large a share of the pixels changed. *)
Definition relativeFailure (snapshotNumber : Z) (relative : number)
    (outcome : OdiffReturnType) : ImageMatcherResult :=
  let percentThreshold := Number_toFixed (mul relative hundred) 2 in
  let percentChanged := Number_toFixed (mul (diffPercentage outcome) hundred) 2 in
  {| pass := false;
     message := Some (fun _ =>
       preamble snapshotNumber ++ newline ++ newline
       ++ "Expected less than "
       ++ chalk_green (percentThreshold ++ "%")
       ++ " of the pixels to have changed, but "
       ++ chalk_red (percentChanged ++ "%")
       ++ " of the pixels changed.");
     changedRelative := Some (diffPercentage outcome);
     changedPixels := Some (diffCount outcome) |}.

(** The result of the third [if]: the dimensions changed. *)
Definition dimensionFailure (snapshotNumber : Z) (outcome : OdiffReturnType)
    : ImageMatcherResult :=
  {| pass := false;
     message := Some (fun _ =>
       preamble snapshotNumber ++ newline ++ newline
       ++ "Expected snapshot dimensions to be the same, but dimensions changed.");
     changedRelative := Some (diffPercentage outcome);
     changedPixels := Some (diffCount outcome) |}.

(** [{ pass: true }]. *)
Definition passed : ImageMatcherResult :=
  {| pass := true; message := None; changedRelative := None; changedPixels := None |}.

(** [match === false && reason === 'layout-diff']. *)
Definition isLayoutDiff (outcome : OdiffReturnType) : bool :=
  negb (match_ outcome)
  && match reason outcome with Some layout_diff => true | _ => false end.

(** [checkImages] once [compare] has returned: the three [if]s in the
    order of the source, then the pass. *)
Definition verdict (snapshotNumber : Z) (configuration : JestScreenshotConfiguration)
    (outcome : OdiffReturnType) : ImageMatcherResult :=
  match exceeded (diffCount outcome) (pixelThresholdAbsolute configuration) with
  | Some absolute => absoluteFailure snapshotNumber absolute outcome
  | None =>
      match exceeded (diffPercentage outcome) (pixelThresholdRelative configuration) with
      | Some relative => relativeFailure snapshotNumber relative outcome
      | None =>
          if isLayoutDiff outcome then dimensionFailure snapshotNumber outcome
          else passed
      end
  end.

Definition checkImages (snapshotPath receivedPath diffPath : string) (snapshotNumber : Z)
    (configuration : JestScreenshotConfiguration) : M ImageMatcherResult :=
  (* Perform the actual image diff. *)
  outcome <- compare receivedPath snapshotPath diffPath
               {| antialiasing := detectAntialiasing configuration;
                  diffColor := None;
                  threshold := colorThreshold configuration;
                  outputDiffMask := true |} ;;
  ret (verdict snapshotNumber configuration outcome).

(** [x || 0] on a counter that may be absent. *)
Definition or_zero (x : option Z) : Z :=
  match x with
  | Some v => if v =? 0 then 0 else v
  | None => 0
  end.

(** The occurrence index a call under [name] gets in state [st]. *)
Definition nextSnapshotNumber (st : SnapshotState) (name : string) : Z :=
  or_zero (_counters st !! name) + 1.

Definition set_counter (name : string) (n : Z) (st : SnapshotState) : SnapshotState :=
  {| _updateSnapshot := _updateSnapshot st;
     _counters := <[name := n]> (_counters st);
     added := added st;
     updated := updated st |}.

Definition increment_added (st : SnapshotState) : SnapshotState :=
  {| _updateSnapshot := _updateSnapshot st;
     _counters := _counters st;
     added := added st + 1;
     updated := updated st |}.

Definition increment_updated (st : SnapshotState) : SnapshotState :=
  {| _updateSnapshot := _updateSnapshot st;
     _counters := _counters st;
     added := added st;
     updated := updated st + 1 |}.

Definition modify_snapshotState (f : SnapshotState -> SnapshotState) : M unit :=
  modify (fun w => set_snapshotState (f (snapshotState w)) w).

(** The explanation of a missing snapshot that may not be written. *)
Definition notWrittenMessage : string :=
  "New snapshot was " ++ chalk_red "not written" ++ ". "
  ++ "The update flag must be explicitly passed to write a new snapshot."
  ++ newline ++ newline
  ++ "This is likely because this test is run in a continuous integration (CI) environment "
  ++ "in which snapshots are not written by default.".

(** Calling [message()]: a [TypeError] when there is no producer. *)
Definition call_message (m : option (unit -> string)) : M string :=
  match m with
  | Some produce => ret (produce tt)
  | None => throw (Error "TypeError: message is not a function")
  end.

Definition toMatchImageSnapshot (this : ThisValue) (received : string)
    (configuration : JestScreenshotConfiguration)
    (parameters : ToMatchImageSnapshotParameters) : M ImageMatcherResult :=
  (* Check whether `this` is really the expected Jest configuration. *)
  match isJestTestConfiguration this with
  | None =>
      throw (Error "Jest: Attempted to call `.toMatchImageSnapshot()` outside of Jest context.")
  | Some jest =>
      if isNot jest then
        throw (Error "Jest: `.not` cannot be used with `.toMatchImageSnapshot()`.")
      else
        state <- get_snapshotState ;;
        let update := _updateSnapshot state in
        let snapshotNumber := nextSnapshotNumber state (currentTestName jest) in
        modify_snapshotState (set_counter (currentTestName jest) snapshotNumber) ;;
        state <- get_snapshotState ;;
        let snapshotPath :=
          match path parameters with
          | Some p => p
          | None =>
              getSnapshotPath (testPath jest) (currentTestName jest) state
                (snapshotsDir configuration)
          end in
        let reportPath :=
          getReportPath (testPath jest) (currentTestName jest) state
            (reportDir configuration) in
        (* Create the path to store the snapshots in. *)
        mkdirp (path_dirname snapshotPath) ;;
        present <- existsSync snapshotPath ;;
        if negb present then
          (* The image did not yet exist. *)
          if String.eqb update "new" || String.eqb update "all" then
            modify_snapshotState increment_added ;;
            writeFileSync snapshotPath received ;;
            ret passed
          else
            (* Otherwise fail due to missing snapshot. *)
            ret {| pass := false;
                   message := Some (fun _ => notWrittenMessage);
                   changedRelative := None;
                   changedPixels := None |}
        else
          tmpComparisonDir <- mkdtempSync (path_join os_tmpdir "jest-screenshot-odiff-") ;;
          let tmpReceivedPath := path_join tmpComparisonDir "received.png" in
          let tmpDiffPath := path_join tmpComparisonDir "diff.png" in
          writeFileSync tmpReceivedPath received ;;
          (* Perform the actual diff of the images. *)
          result <- checkImages snapshotPath tmpReceivedPath tmpDiffPath snapshotNumber
                      configuration ;;
          if negb (pass result) then
            if String.eqb update "all" then
              modify_snapshotState increment_updated ;;
              writeFileSync snapshotPath received ;;
              ret passed
            else
              (if negb (noReport configuration) then
                 mkdirp reportPath ;;
                 let receivedPath := path_join reportPath "received.png" in
                 let diffPath := path_join reportPath "diff.png" in
                 let snapshotPathReport := path_join reportPath "snapshot.png" in
                 writeFileSync receivedPath received ;;
                 copyFileSync tmpDiffPath diffPath ;;
                 copyFileSync snapshotPath snapshotPathReport ;;
                 text <- call_message (message result) ;;
                 writeFileSync (path_join reportPath "info.json")
                   (JSON_stringify
                      {| Info.testName := currentTestName jest;
                         Info.message := text;
                         Info.changedRelative := changedRelative result;
                         Info.changedPixels := changedPixels result;
                         Info.testFileName := path_relative process_cwd (testPath jest);
                         Info.snapshotNumber := snapshotNumber;
                         Info.receivedPath :=
                           path_relative (getReportDir (reportDir configuration)) receivedPath;
                         Info.diffPath :=
                           path_relative (getReportDir (reportDir configuration)) diffPath;
                         Info.snapshotPath :=
                           path_relative (getReportDir (reportDir configuration))
                             snapshotPathReport |})
               else ret tt) ;;
              ret {| pass := pass result; message := message result;
                     changedRelative := None; changedPixels := None |}
          else
            ret {| pass := pass result; message := message result;
                   changedRelative := None; changedPixels := None |}
  end.

End Model.

(** ** The policy of the specification

    The verdict policy as the specification words it: the first rule that
    matches decides, and no rule means a pass. *)

Inductive Rule :=
| AbsoluteThreshold (limit : number)
| RelativeThreshold (limit : number)
| DimensionMismatch.

(** Rule 1: the absolute threshold is a number and the count exceeds it. *)
Definition absoluteRule (configuration : JestScreenshotConfiguration)
    (outcome : OdiffReturnType) : option Rule :=
  match pixelThresholdAbsolute configuration with
  | Some limit =>
      if gt (diffCount outcome) limit then Some (AbsoluteThreshold limit) else None
  | None => None
  end.

(** Rule 2: the relative threshold is a number and the share exceeds it. *)
Definition relativeRule (configuration : JestScreenshotConfiguration)
    (outcome : OdiffReturnType) : option Rule :=
  match pixelThresholdRelative configuration with
  | Some limit =>
      if gt (diffPercentage outcome) limit then Some (RelativeThreshold limit) else None
  | None => None
  end.

(** Rule 3: the outcome is unmatched because the dimensions differ. *)
Definition dimensionRule (outcome : OdiffReturnType) : option Rule :=
  match match_ outcome, reason outcome with
  | false, Some layout_diff => Some DimensionMismatch
  | _, _ => None
  end.

(** The first rule of a list that matches. *)
Fixpoint firstMatch (rules : list (option Rule)) : option Rule :=
  match rules with
  | [] => None
  | Some r :: _ => Some r
  | None :: rest => firstMatch rest
  end.

Definition policy (configuration : JestScreenshotConfiguration)
    (outcome : OdiffReturnType) : option Rule :=
  firstMatch [absoluteRule configuration outcome;
              relativeRule configuration outcome;
              dimensionRule outcome].

(** The same configuration with other pixel thresholds. *)
Definition with_thresholds (absolute relative : option number)
    (c : JestScreenshotConfiguration) : JestScreenshotConfiguration :=
  {| snapshotsDir := snapshotsDir c;
     reportDir := reportDir c;
     noReport := noReport c;
     colorThreshold := colorThreshold c;
     detectAntialiasing := detectAntialiasing c;
     pixelThresholdAbsolute := absolute;
     pixelThresholdRelative := relative |}.

(** A threshold that, when configured, is not below zero. *)
Definition not_negative (limit : option number) : bool :=
  match limit with
  | Some l => negb (gt zero l)
  | None => true
  end.

(** The text a result explains itself with, when it has one. *)
Definition explanation (r : ImageMatcherResult) : option string :=
  match message r with
  | Some produce => Some (produce tt)
  | None => None
  end.

(** ** A host to run the model on

    A host whose engine always ends the same way, whose paths are joined
    with a slash and whose numbers print as a fixed text. *)

Definition exampleHost (engine : JsError + string) : Host :=
  {| ThisValue := option JestTestConfiguration;
     isJestTestConfiguration := fun this => this;
     getSnapshotPath := fun _ name st dir =>
       default "__snapshots__" dir ++ "/" ++ name ++ "-"
       ++ JsString.of_Z (or_zero (_counters st !! name)) ++ ".snap.png";
     getReportPath := fun _ name st dir =>
       default "jest-screenshot-report" dir ++ "/reports/" ++ name ++ "-"
       ++ JsString.of_Z (or_zero (_counters st !! name));
     getReportDir := fun dir => default "jest-screenshot-report" dir;
     path_join := fun a b => a ++ "/" ++ b;
     path_dirname := fun p => p ++ "/..";
     path_relative := fun _ to => to;
     path_resolve := fun parts => join "/" (map Some parts);
     process_cwd := "/repo";
     os_tmpdir := "/tmp";
     os_EOL := newline;
     require_resolve := fun request => inr ("/repo/node_modules/" ++ request ++ "/odiff.js");
     execSync := fun _ w => (engine, files w);
     execSync_stderr := fun _ _ => EmptyString;
     mkdtemp_suffix := fun _ _ => "abc123";
     chalk_enabled := true;
     Number_toString := fun _ => "<number>";
     Number_toFixed := fun _ _ => "<number>";
     JSON_stringify := fun info => Info.message info |}.

(** The error [execSync] throws for a child that exits with [code] after
    printing [out]. *)
Definition exitError (code : Z) (out : string) : JsError :=
  {| error_message := "Command failed";
     status := Some code;
     output := Some [None; Some out; Some EmptyString] |}.

Definition exampleState (update : string) : SnapshotState :=
  {| _updateSnapshot := update; _counters := ∅; added := 0; updated := 0 |}.

Definition exampleWorld (update : string) (fs : gmap string string) : World :=
  {| files := fs; effects := []; stderr := []; snapshotState := exampleState update |}.

Definition exampleConfiguration : JestScreenshotConfiguration :=
  {| snapshotsDir := None; reportDir := None; noReport := false;
     colorThreshold := None; detectAntialiasing := true;
     pixelThresholdAbsolute := None; pixelThresholdRelative := None |}.

Definition exampleOptions : OdiffOptions :=
  {| antialiasing := true; diffColor := None; threshold := None; outputDiffMask := true |}.

Definition exampleThis : option JestTestConfiguration :=
  Some {| testPath := "/repo/home.test.ts"; currentTestName := "home page"; isNot := false |}.

(** ** Names for the statements *)

(** The outcome of identical images. *)
Definition matchedOutcome : OdiffReturnType :=
  {| match_ := true; reason := None; diffCount := zero; diffPercentage := zero |}.

(** The outcome of images of different dimensions. *)
Definition layoutOutcome : OdiffReturnType :=
  {| match_ := false; reason := Some layout_diff; diffCount := zero; diffPercentage := zero |}.

(** The fields of the engine's output, as the adapter splits them. *)
Definition outputFields (e : JsError) : list string :=
  split ";" (trim (join EmptyString (default [] (output e)))).

(** The outcome of a pixel difference, read from the engine's output. *)
Definition pixelOutcome (e : JsError) : OdiffReturnType :=
  {| match_ := false; reason := Some pixel_diff;
     diffCount := parseInt (default "0" (outputFields e !! 0%nat));
     diffPercentage := div (parseFloat (default "0" (outputFields e !! 1%nat))) hundred |}.

(** The command line the adapter runs. *)
Definition odiffCommand `{Host} (odiffPath a b diff : string) (options : OdiffOptions) : string :=
  path_resolve [odiffPath; ".."; "bin"; "odiff"] ++ " " ++ a ++ " " ++ b ++ " " ++ diff
  ++ " " ++ join " " (map Some (odiffFlags options)).

(** The world after [execSync] ran [command]: the files the child left,
    the run among the effects, and what the child wrote to its standard
    error on the error channel. *)
Definition ran `{Host} (command : string) (w : World) : World :=
  forward_stderr (execSync_stderr command w)
    (add_effect (ExecSync command) (set_files (execSync command w).2 w)).

(** What a call of [compare] forwards to the error channel from the
    engine: what the engine wrote to its standard error, and nothing when
    it wrote nothing or the binary was not found. *)
Definition engineStderr `{Host} (a b diff : string) (options : OdiffOptions)
    (w : World) : list string :=
  match require_resolve "odiff-bin" with
  | inr odiffPath =>
      match execSync_stderr (odiffCommand odiffPath a b diff options) w with
      | EmptyString => []
      | String _ _ => [execSync_stderr (odiffCommand odiffPath a b diff options) w]
      end
  | inl _ => []
  end.

(** What the [catch] writes to the error channel before it rethrows. *)
Definition diagnostics `{Host} (e : JsError) : list string :=
  ["Error executing odiff image comparison in " ++ dquote
     ++ "@craft.co/jest-screenshot-odiff" ++ dquote]
  ++ (match status e with
      | Some s => if s =? 0 then [] else ["Exit code: " ++ JsString.of_Z s]
      | None => []
      end)
  ++ (match output e with
      | Some o => [join os_EOL o]
      | None => []
      end).

(** The world after the diagnostics of [e] went to the error channel. *)
Definition with_diagnostics `{Host} (e : JsError) (w : World) : World :=
  {| files := files w; effects := effects w;
     stderr := stderr w ++ diagnostics e;
     snapshotState := snapshotState w |}.

(** The mantissa and exponent of a positive integer below 2^53, shifted
    to 53 bits. *)
Definition aligned (p : positive) : positive * Z :=
  shl_align p 0 (Zpos (digits2_pos p) - 53).

(** What the adapter makes of an error thrown in its [try] block, by exit
    status. *)
Definition caught `{Host} (e : JsError) (w : World) : Completion OdiffReturnType * World :=
  match status e with
  | Some 21 => (Normal layoutOutcome, w)
  | Some 22 => (Normal (pixelOutcome e), w)
  | _ => (Throw e, with_diagnostics e w)
  end.

(** The options [checkImages] hands to [compare]. *)
Definition checkOptions (configuration : JestScreenshotConfiguration) : OdiffOptions :=
  {| antialiasing := detectAntialiasing configuration;
     diffColor := None;
     threshold := colorThreshold configuration;
     outputDiffMask := true |}.

(** The result [checkImages] builds for a rule of the policy. *)
Definition render `{Host} (snapshotNumber : Z) (outcome : OdiffReturnType)
    (rule : option Rule) : ImageMatcherResult :=
  match rule with
  | Some (AbsoluteThreshold limit) => absoluteFailure snapshotNumber limit outcome
  | Some (RelativeThreshold limit) => relativeFailure snapshotNumber limit outcome
  | Some DimensionMismatch => dimensionFailure snapshotNumber outcome
  | None => passed
  end.

(** *** The stages of a matcher call

    The values and worlds a call of [toMatchImageSnapshot] goes through
    once [this] is known to be the Jest configuration [jest]. *)

Section Stages.

Context `{Host}.
Variable jest : JestTestConfiguration.
Variable received : string.
Variable configuration : JestScreenshotConfiguration.
Variable parameters : ToMatchImageSnapshotParameters.
Variable w : World.

(** The occurrence index of the call. *)
Definition occurrence : Z :=
  nextSnapshotNumber (snapshotState w) (currentTestName jest).

(** The snapshot state once the index is stored back. *)
Definition countedState : SnapshotState :=
  set_counter (currentTestName jest) occurrence (snapshotState w).

(** The path of the reference image: the override, or the derived path. *)
Definition referencePath : string :=
  match path parameters with
  | Some p => p
  | None =>
      getSnapshotPath (testPath jest) (currentTestName jest) countedState
        (snapshotsDir configuration)
  end.

(** The world once the reference was looked for. *)
Definition checkedWorld : World :=
  {| files := files w;
     effects := effects w ++ [Mkdirp (path_dirname referencePath); ExistsSync referencePath];
     stderr := stderr w;
     snapshotState := countedState |}.

(** The temporary directory of the comparison. *)
Definition temporaryDir : string :=
  path_join os_tmpdir "jest-screenshot-odiff-"
  ++ mkdtemp_suffix (path_join os_tmpdir "jest-screenshot-odiff-") checkedWorld.

(** The world [checkImages] starts in: the received image is staged in
    the temporary directory. *)
Definition stagedWorld : World :=
  {| files := <[path_join temporaryDir "received.png" := received]> (files w);
     effects := effects checkedWorld
                ++ [MkdtempSync temporaryDir;
                    WriteFileSync (path_join temporaryDir "received.png") received];
     stderr := stderr w;
     snapshotState := countedState |}.

End Stages.


(** The two usage errors. *)
Definition outsideJest : JsError :=
  Error "Jest: Attempted to call `.toMatchImageSnapshot()` outside of Jest context.".

Definition negated : JsError :=
  Error "Jest: `.not` cannot be used with `.toMatchImageSnapshot()`.".

(** Update modes that let a missing reference be written. *)
Definition writesNew (update : string) : bool :=
  String.eqb update "new" || String.eqb update "all".

(** *** Runs of several calls *)

(** The arguments of one matcher call. *)
Record Call `{Host} := {
  call_this : ThisValue;
  call_received : string;
  call_configuration : JestScreenshotConfiguration;
  call_parameters : ToMatchImageSnapshotParameters }.

(** The world a call leaves, however it ends. *)
Definition run `{Host} (c : Call) (w : World) : World :=
  (toMatchImageSnapshot (call_this c) (call_received c) (call_configuration c)
     (call_parameters c) w).2.

(** The test name a call counts under: none when the call is a usage
    error. *)
Definition countedName `{Host} (c : Call) : option string :=
  match isJestTestConfiguration (call_this c) with
  | Some jest => if isNot jest then None else Some (currentTestName jest)
  | None => None
  end.

(** The occurrence indices the calls under [name] get, in order, when
    [calls] run one after the other from [w]. *)
Fixpoint indices `{Host} (name : string) (calls : list Call) (w : World) : list Z :=
  match calls with
  | [] => []
  | c :: rest =>
      let later := indices name rest (run c w) in
      match countedName c with
      | Some t =>
          if String.eqb t name
          then nextSnapshotNumber (snapshotState w) name :: later
          else later
      | None => later
      end
  end.

(** How many of the calls count under [name]. *)
Fixpoint countCalls `{Host} (name : string) (calls : list Call) : nat :=
  match calls with
  | [] => O
  | c :: rest =>
      match countedName c with
      | Some t => if String.eqb t name then S (countCalls name rest) else countCalls name rest
      | None => countCalls name rest
      end
  end.

(** [preserves g m]: running [m] does not change what [g] reads from the
    snapshot state, however [m] ends. *)
Definition preserves {A X} (g : SnapshotState -> X) (m : M A) : Prop :=
  forall w, g (snapshotState (m w).2) = g (snapshotState w).

(** The [this] of a test called [name]. *)
Definition exampleThisOf (name : string) : option JestTestConfiguration :=
  Some {| testPath := "/repo/home.test.ts"; currentTestName := name; isNot := false |}.

(** A call under the test [name], on the example host. *)
Definition exampleCall (name : string) : @Call (exampleHost (inr EmptyString)) :=
  @Build_Call (exampleHost (inr EmptyString)) (exampleThisOf name) "PNG"
    exampleConfiguration {| path := None |}.

(** *** The comparison branch of a matcher call

    What a call whose reference exists compares, and what it reports. *)

Section Comparison.

Context `{Host}.
Variable jest : JestTestConfiguration.
Variable received : string.
Variable configuration : JestScreenshotConfiguration.
Variable parameters : ToMatchImageSnapshotParameters.
Variable w : World.

(** The staged copy of the received image, and where the engine is asked
    to put the diff mask. *)
Definition stagedReceivedPath : string :=
  path_join (temporaryDir jest configuration parameters w) "received.png".

Definition stagedDiffPath : string :=
  path_join (temporaryDir jest configuration parameters w) "diff.png".

(** The call of [checkImages] and how it ends. *)
Definition comparison : Completion ImageMatcherResult * World :=
  checkImages (referencePath jest configuration parameters w)
    stagedReceivedPath stagedDiffPath (occurrence jest w) configuration
    (stagedWorld jest received configuration parameters w).

(** The directory of the report bundle. *)
Definition bundleDir : string :=
  getReportPath (testPath jest) (currentTestName jest) (countedState jest w)
    (reportDir configuration).

(** The object of [info.json] for a failed verdict and its text. *)
Definition bundleInfo (result : ImageMatcherResult) (text : string) : Info.t :=
  {| Info.testName := currentTestName jest;
     Info.message := text;
     Info.changedRelative := changedRelative result;
     Info.changedPixels := changedPixels result;
     Info.testFileName := path_relative process_cwd (testPath jest);
     Info.snapshotNumber := occurrence jest w;
     Info.receivedPath :=
       path_relative (getReportDir (reportDir configuration))
         (path_join bundleDir "received.png");
     Info.diffPath :=
       path_relative (getReportDir (reportDir configuration))
         (path_join bundleDir "diff.png");
     Info.snapshotPath :=
       path_relative (getReportDir (reportDir configuration))
         (path_join bundleDir "snapshot.png") |}.

End Comparison.

(** [{ pass, message }]: what the matcher hands back of a verdict. *)
Definition handedBack (result : ImageMatcherResult) : ImageMatcherResult :=
  {| pass := pass result; message := message result;
     changedRelative := None; changedPixels := None |}.

(** The error of copying a file that is not there. *)
Definition copyError (src dest : string) : JsError :=
  Error ("ENOENT: no such file or directory, copyfile '" ++ src ++ "' -> '" ++ dest ++ "'").

(** The example host with an engine that also leaves a diff mask in the
    temporary directory of the example calls. *)
Definition diffingHost (engine : JsError + string) : Host :=
  let h := exampleHost engine in
  {| ThisValue := @ThisValue h;
     isJestTestConfiguration := @isJestTestConfiguration h;
     getSnapshotPath := @getSnapshotPath h;
     getReportPath := @getReportPath h;
     getReportDir := @getReportDir h;
     path_join := @path_join h;
     path_dirname := @path_dirname h;
     path_relative := @path_relative h;
     path_resolve := @path_resolve h;
     process_cwd := @process_cwd h;
     os_tmpdir := @os_tmpdir h;
     os_EOL := @os_EOL h;
     require_resolve := @require_resolve h;
     execSync := fun _ w =>
       (engine, <["/tmp/jest-screenshot-odiff-abc123/diff.png" := "MASK"]> (files w));
     execSync_stderr := @execSync_stderr h;
     mkdtemp_suffix := @mkdtemp_suffix h;
     chalk_enabled := @chalk_enabled h;
     Number_toString := @Number_toString h;
     Number_toFixed := @Number_toFixed h;
     JSON_stringify := @JSON_stringify h |}.

(** The example host with an engine that also writes [warning] to its
    standard error. *)
Definition warningHost (engine : JsError + string) (warning : string) : Host :=
  let h := exampleHost engine in
  {| ThisValue := @ThisValue h;
     isJestTestConfiguration := @isJestTestConfiguration h;
     getSnapshotPath := @getSnapshotPath h;
     getReportPath := @getReportPath h;
     getReportDir := @getReportDir h;
     path_join := @path_join h;
     path_dirname := @path_dirname h;
     path_relative := @path_relative h;
     path_resolve := @path_resolve h;
     process_cwd := @process_cwd h;
     os_tmpdir := @os_tmpdir h;
     os_EOL := @os_EOL h;
     require_resolve := @require_resolve h;
     execSync := @execSync h;
     execSync_stderr := fun _ _ => warning;
     mkdtemp_suffix := @mkdtemp_suffix h;
     chalk_enabled := @chalk_enabled h;
     Number_toString := @Number_toString h;
     Number_toFixed := @Number_toFixed h;
     JSON_stringify := @JSON_stringify h |}.

(** The world of the example runs: the reference of the first occurrence
    of the test [home page] exists. *)
Definition exampleReference : string := "__snapshots__/home page-1.snap.png".

Definition exampleJest : JestTestConfiguration :=
  {| testPath := "/repo/home.test.ts"; currentTestName := "home page"; isNot := false |}.

Definition exampleStart (update : string) : World :=
  exampleWorld update {[ exampleReference := "OLD" ]}.

Definition tenPixels : JestScreenshotConfiguration :=
  with_thresholds (Some (JsNumber.of_Z 10)) None exampleConfiguration.

Definition quiet (c : JestScreenshotConfiguration) : JestScreenshotConfiguration :=
  {| snapshotsDir := snapshotsDir c; reportDir := reportDir c; noReport := true;
     colorThreshold := colorThreshold c; detectAntialiasing := detectAntialiasing c;
     pixelThresholdAbsolute := pixelThresholdAbsolute c;
     pixelThresholdRelative := pixelThresholdRelative c |}.

(** What a computation may do to the totals and the update mode: the
    mode stays, neither total goes down, and together they go up by at
    most [k]. *)
Definition totals_step (k : Z) (s s' : SnapshotState) : Prop :=
  _updateSnapshot s' = _updateSnapshot s
  /\ added s <= added s'
  /\ updated s <= updated s'
  /\ (added s' - added s) + (updated s' - updated s) <= k.

Definition changes {A} (k : Z) (m : M A) : Prop :=
  forall w, totals_step k (snapshotState w) (snapshotState (m w).2).

(** Do all characters of [s] satisfy [P]? *)
Fixpoint all_chars (P : ascii -> bool) (s : string) : bool :=
  match s with
  | EmptyString => true
  | String c r => P c && all_chars P r
  end.

(** A character that neither [trim] nor [split(';')] treats specially. *)
Definition isField (c : ascii) : bool := negb (isWhiteSpace c) && negb (Ascii.eqb c ";").

Definition isDecimalDigit (c : ascii) : bool :=
  let n := N_of_ascii c in ((48 <=? n) && (n <=? 57))%N.

(** The parts of an output one after the other, a missing part counting
    as nothing. *)
Definition concatenated (parts : list (option string)) : string :=
  foldr (fun part rest => default EmptyString part ++ rest) EmptyString parts.

(** Is the first character of [s] whitespace? *)
Definition startsWhite (s : string) : bool :=
  match s with
  | String c _ => isWhiteSpace c
  | EmptyString => false
  end.

(** A text neither end of which is whitespace. *)
Definition trimmed (s : string) : bool :=
  negb (startsWhite s) && negb (startsWhite (reverse s)).

Definition noSemicolon (s : string) : bool :=
  all_chars (fun c => negb (Ascii.eqb c ";")) s.

(** * Properties *)

(** ** The built-ins on examples *)

Example parseInt_examples :
  parseInt "50" = JsNumber.of_Z 50
  /\ parseInt "  42px" = JsNumber.of_Z 42
  /\ parseInt "-7" = JsNumber.of_Z (-7)
  /\ parseInt "0x1F" = JsNumber.of_Z 31
  /\ parseInt "12.9" = JsNumber.of_Z 12
  /\ parseInt EmptyString = NaN
  /\ parseInt "px" = NaN.
Proof. repeat split. Qed.

Example parseFloat_examples :
  parseFloat "10" = JsNumber.of_Z 10
  /\ parseFloat "12.5" = of_ratio false 25 2
  /\ parseFloat ".5" = of_ratio false 1 2
  /\ parseFloat "1e3" = JsNumber.of_Z 1000
  /\ parseFloat "2.5e-1rest" = of_ratio false 1 4
  /\ parseFloat "-Infinity" = S754_infinity true
  /\ parseFloat "1e400" = Infinity
  /\ parseFloat EmptyString = NaN
  /\ parseFloat "." = NaN.
Proof. repeat split. Qed.

(** Ten percent, as the adapter computes it from the engine's output. *)
Example ten_percent : div (parseFloat "10") hundred = of_ratio false 1 10.
Proof. reflexivity. Qed.

Example string_examples :
  trim (" 50;10" ++ newline) = "50;10"
  /\ split ";" "50;10" = ["50"; "10"]
  /\ split ";" "50" = ["50"]
  /\ split ";" EmptyString = [EmptyString]
  /\ join EmptyString [None; Some "50;10"; Some EmptyString] = "50;10"
  /\ join "," [Some "a"; None; Some "b"] = "a,,b"
  /\ JsString.of_Z 21 = "21".
Proof. repeat split. Qed.

(** Above 2^53 not every integer is a double: the successor of 2^53
    rounds back to it. *)
Example beyond_exact_integers :
  JsNumber.of_Z (2 ^ 53 + 1) = JsNumber.of_Z (2 ^ 53)
  /\ gt (JsNumber.of_Z (2 ^ 53 + 1)) (JsNumber.of_Z (2 ^ 53)) = false.
Proof. split; reflexivity. Qed.

(** ** The effect monad *)

Lemma bind_normal {A B} (m : M A) (k : A -> M B) (w w' : World) (a : A) :
  m w = (Normal a, w') -> bind m k w = k a w'.
Proof. intros E. unfold bind. now rewrite E. Qed.

(** One step of a computation, for each primitive. *)
Lemma bind_ret {A B} (a : A) (k : A -> M B) (w : World) : bind (ret a) k w = k a w.
Proof. reflexivity. Qed.

Lemma bind_modify {B} (f : World -> World) (k : unit -> M B) (w : World) :
  bind (modify f) k w = k tt (f w).
Proof. reflexivity. Qed.

Lemma bind_get_snapshotState {B} (k : SnapshotState -> M B) (w : World) :
  bind get_snapshotState k w = k (snapshotState w) w.
Proof. reflexivity. Qed.

Lemma bind_modify_snapshotState {B} (f : SnapshotState -> SnapshotState)
    (k : unit -> M B) (w : World) :
  bind (modify_snapshotState f) k w = k tt (set_snapshotState (f (snapshotState w)) w).
Proof. reflexivity. Qed.

Lemma bind_mkdirp {B} (dir : string) (k : unit -> M B) (w : World) :
  bind (mkdirp dir) k w = k tt (add_effect (Mkdirp dir) w).
Proof. reflexivity. Qed.

Lemma bind_existsSync {B} (p : string) (k : bool -> M B) (w : World) :
  bind (existsSync p) k w =
  k (bool_decide (is_Some (files w !! p))) (add_effect (ExistsSync p) w).
Proof. reflexivity. Qed.

Lemma bind_writeFileSync {B} (p data : string) (k : unit -> M B) (w : World) :
  bind (writeFileSync p data) k w =
  k tt (add_effect (WriteFileSync p data) (set_files (<[p := data]> (files w)) w)).
Proof. reflexivity. Qed.

Lemma bind_mkdtempSync `{Host} {B} (prefix : string) (k : string -> M B) (w : World) :
  bind (mkdtempSync prefix) k w =
  k (prefix ++ mkdtemp_suffix prefix w)
    (add_effect (MkdtempSync (prefix ++ mkdtemp_suffix prefix w)) w).
Proof. reflexivity. Qed.

Ltac step :=
  first [ rewrite bind_ret | rewrite bind_modify_snapshotState | rewrite bind_modify
        | rewrite bind_get_snapshotState | rewrite bind_mkdirp | rewrite bind_existsSync
        | rewrite bind_writeFileSync | rewrite bind_mkdtempSync ];
  cbv beta.

(** ** Strings: concatenation, trimming and splitting *)

(** Equations of string concatenation and reversal. *)
Lemma append_cons (c : ascii) (r s : string) :
  (String c r ++ s)%string = String c (r ++ s).
Proof. reflexivity. Qed.

Lemma append_nil_l (s : string) : (EmptyString ++ s)%string = s.
Proof. reflexivity. Qed.

Lemma append_nil_r (s : string) : (s ++ EmptyString)%string = s.
Proof. induction s as [|c r IH]; [reflexivity|]. now rewrite append_cons, IH. Qed.

Lemma append_assoc (a b c : string) : ((a ++ b) ++ c = a ++ b ++ c)%string.
Proof. induction a as [|x r IH]; [reflexivity|]. now rewrite !append_cons, IH. Qed.

Lemma rev_onto_app (s acc : string) : rev_onto s acc = (reverse s ++ acc)%string.
Proof.
  revert acc. induction s as [|c r IH]; intros acc; [reflexivity|].
  unfold reverse. cbn [rev_onto]. rewrite (IH (String c acc)), (IH (String c EmptyString)).
  now rewrite append_assoc.
Qed.

Lemma reverse_cons (c : ascii) (r : string) :
  reverse (String c r) = (reverse r ++ String c EmptyString)%string.
Proof. unfold reverse at 1. cbn [rev_onto]. apply rev_onto_app. Qed.

Lemma reverse_append (a b : string) : reverse (a ++ b) = (reverse b ++ reverse a)%string.
Proof.
  induction a as [|c r IH].
  - rewrite append_nil_l. change (reverse EmptyString) with EmptyString.
    now rewrite append_nil_r.
  - now rewrite append_cons, !reverse_cons, IH, append_assoc.
Qed.

Lemma reverse_twice (s : string) : reverse (reverse s) = s.
Proof.
  induction s as [|c r IH]; [reflexivity|].
  now rewrite reverse_cons, reverse_append, IH.
Qed.

(** [all_chars] over concatenation, reversal and a weaker test. *)
Lemma all_chars_app P (a b : string) :
  all_chars P (a ++ b) = (all_chars P a && all_chars P b)%bool.
Proof.
  induction a as [|c r IH]; [reflexivity|].
  rewrite append_cons. cbn [all_chars]. now rewrite IH, andb_assoc.
Qed.

Lemma all_chars_reverse P (s : string) : all_chars P (reverse s) = all_chars P s.
Proof.
  induction s as [|c r IH]; [reflexivity|].
  rewrite reverse_cons, all_chars_app, IH. cbn [all_chars].
  now rewrite andb_true_r, andb_comm.
Qed.

Lemma all_chars_impl (P Q : ascii -> bool) (s : string) :
  (forall c, P c = true -> Q c = true) -> all_chars P s = true -> all_chars Q s = true.
Proof.
  intros PQ. induction s as [|c r IH]; [reflexivity|]. cbn [all_chars].
  intros S. apply andb_true_iff in S. destruct S as [C S].
  now rewrite (PQ _ C), IH.
Qed.

(** [trimStart] drops leading whitespace and nothing else. *)
Lemma trimStart_whitespace (ws s : string) :
  all_chars isWhiteSpace ws = true -> trimStart (ws ++ s) = trimStart s.
Proof.
  induction ws as [|c r IH]; [reflexivity|].
  rewrite append_cons. cbn [all_chars trimStart].
  intros W. apply andb_true_iff in W. destruct W as [C W]. rewrite C. now apply IH.
Qed.

Lemma trimStart_solid (s : string) :
  all_chars (fun c => negb (isWhiteSpace c)) s = true -> trimStart s = s.
Proof.
  destruct s as [|c r]; [reflexivity|]. cbn [all_chars trimStart].
  intros W. apply andb_true_iff in W. destruct W as [C _].
  apply negb_true_iff in C. now rewrite C.
Qed.

(** [trimEnd] drops trailing whitespace. *)
Lemma trimEnd_solid (s ws : string) :
  all_chars (fun c => negb (isWhiteSpace c)) s = true ->
  all_chars isWhiteSpace ws = true ->
  trimEnd (s ++ ws) = s.
Proof.
  intros S W. unfold trimEnd.
  rewrite reverse_append, trimStart_whitespace by now rewrite all_chars_reverse.
  rewrite trimStart_solid by now rewrite all_chars_reverse.
  apply reverse_twice.
Qed.

(** [trim] takes whitespace off the end of a text that has none inside. *)
Lemma trim_solid (s ws : string) :
  all_chars (fun c => negb (isWhiteSpace c)) s = true ->
  all_chars isWhiteSpace ws = true ->
  trim (s ++ ws) = s.
Proof.
  intros S W. unfold trim.
  destruct s as [|c r].
  - rewrite append_nil_l, <- (append_nil_r ws), trimStart_whitespace by assumption.
    reflexivity.
  - assert (T : trimStart (String c r ++ ws) = (String c r ++ ws)%string).
    { rewrite append_cons. cbn [all_chars trimStart] in *.
      apply andb_true_iff in S. destruct S as [C _].
      apply negb_true_iff in C. now rewrite C. }
    rewrite T. now apply trimEnd_solid.
Qed.

(** A text without separator is one field. *)
Lemma split_from_last (sep : ascii) (s field : string) :
  all_chars (fun c => negb (Ascii.eqb c sep)) s = true ->
  split_from sep field s = [(reverse field ++ s)%string].
Proof.
  revert field. induction s as [|c r IH]; intros field S; cbn [split_from].
  - now rewrite append_nil_r.
  - cbn [all_chars] in S. apply andb_true_iff in S. destruct S as [C S].
    apply negb_true_iff in C. rewrite C, IH by assumption.
    now rewrite reverse_cons, append_assoc.
Qed.

(** The first separator ends the first field. *)
Lemma split_from_first (sep : ascii) (a b field : string) :
  all_chars (fun c => negb (Ascii.eqb c sep)) a = true ->
  split_from sep field (a ++ String sep b)
  = (reverse field ++ a)%string :: split_from sep EmptyString b.
Proof.
  revert field. induction a as [|c r IH]; intros field S.
  - rewrite append_nil_l. cbn [split_from].
    rewrite Ascii.eqb_refl. now rewrite append_nil_r.
  - rewrite append_cons. cbn [split_from].
    cbn [all_chars] in S. apply andb_true_iff in S. destruct S as [C S].
    apply negb_true_iff in C. rewrite C, IH by assumption.
    now rewrite reverse_cons, append_assoc.
Qed.

(** Two fields and one separator split into the two fields. *)
Lemma split_two (sep : ascii) (a b : string) :
  all_chars (fun c => negb (Ascii.eqb c sep)) a = true ->
  all_chars (fun c => negb (Ascii.eqb c sep)) b = true ->
  split sep (a ++ String sep b) = [a; b].
Proof.
  intros A B. unfold split. rewrite split_from_first, split_from_last by assumption.
  reflexivity.
Qed.

(** Joining with the empty separator concatenates. *)
Lemma join_concatenated (parts : list (option string)) :
  join EmptyString parts = concatenated parts.
Proof.
  induction parts as [|x rest IH]; [reflexivity|].
  cbn [join concatenated foldr]. fold (concatenated rest). rewrite <- IH.
  destruct rest as [|y rest]; [|reflexivity].
  cbn [join]. now rewrite append_nil_r.
Qed.

(** [trim] takes the whitespace around a text whose ends are not
    whitespace, and nothing of the text. *)
Lemma trimStart_whitespace_only (ws : string) :
  all_chars isWhiteSpace ws = true -> trimStart ws = EmptyString.
Proof.
  intros W. rewrite <- (append_nil_r ws). now rewrite trimStart_whitespace.
Qed.

Lemma trimStart_edge (s : string) : startsWhite s = false -> trimStart s = s.
Proof. destruct s as [|c r]; [reflexivity|]. cbn [startsWhite trimStart]. now intros ->. Qed.

Lemma startsWhite_app (s t : string) :
  s <> EmptyString -> startsWhite (s ++ t) = startsWhite s.
Proof. destruct s as [|c r]; [congruence|]. now rewrite append_cons. Qed.

Lemma trim_core (lead body trail : string) :
  all_chars isWhiteSpace lead = true ->
  all_chars isWhiteSpace trail = true ->
  trimmed body = true ->
  trim (lead ++ body ++ trail) = body.
Proof.
  intros L T B. unfold trimmed in B. apply andb_true_iff in B.
  destruct B as [Front Back]. apply negb_true_iff in Front, Back.
  unfold trim. rewrite trimStart_whitespace by assumption.
  destruct body as [|c r].
  - rewrite append_nil_l, trimStart_whitespace_only by assumption. reflexivity.
  - rewrite trimStart_edge by (rewrite startsWhite_app; [assumption|discriminate]).
    unfold trimEnd.
    rewrite reverse_append, trimStart_whitespace by now rewrite all_chars_reverse.
    rewrite trimStart_edge by assumption. apply reverse_twice.
Qed.

(** The first separator ends the first field; a text without separator
    is its only field. *)
Lemma split_first (sep : ascii) (a b : string) :
  all_chars (fun c => negb (Ascii.eqb c sep)) a = true ->
  split sep (a ++ String sep b) = a :: split sep b.
Proof. intros A. unfold split. now rewrite split_from_first. Qed.

Lemma split_single (sep : ascii) (s : string) :
  all_chars (fun c => negb (Ascii.eqb c sep)) s = true -> split sep s = [s].
Proof. intros A. unfold split. now rewrite split_from_last. Qed.

(** ** The comparator adapter *)

(** A run of the engine adds itself to the effects, and to the error
    channel what the engine wrote to its standard error. *)
Lemma ran_effects `{Host} (command : string) (w : World) :
  effects (ran command w) = (effects w ++ [ExecSync command])%list.
Proof. unfold ran. now destruct (execSync_stderr command w). Qed.

Lemma ran_stderr `{Host} (command : string) (w : World) :
  stderr (ran command w)
  = (stderr w ++ match execSync_stderr command w with
                 | EmptyString => []
                 | String _ _ => [execSync_stderr command w]
                 end)%list.
Proof.
  unfold ran. destruct (execSync_stderr command w); [|reflexivity].
  cbn. now rewrite app_nil_r.
Qed.

Lemma ran_snapshotState `{Host} (command : string) (w : World) :
  snapshotState (ran command w) = snapshotState w.
Proof. unfold ran. now destruct (execSync_stderr command w). Qed.

Lemma ran_files `{Host} (command : string) (w : World) :
  files (ran command w) = (execSync command w).2.
Proof. unfold ran. now destruct (execSync_stderr command w). Qed.

(** The [try] block is one run of the engine: it ends normally, with the
    matched outcome, exactly when the binary is found and exits with 0,
    and throws the error of the failed step otherwise. *)
Lemma compare_try_spec `{Host} (a b diff : string) (options : OdiffOptions) (w : World) :
  compare_try a b diff options w =
  match require_resolve "odiff-bin" with
  | inl e => (Throw e, w)
  | inr odiffPath =>
      let command := odiffCommand odiffPath a b diff options in
      let w' := ran command w in
      match (execSync command w).1 with
      | inr _ => (Normal matchedOutcome, w')
      | inl e => (Throw e, w')
      end
  end.
Proof.
  unfold compare_try, resolve, bind, exec, odiffCommand, ran.
  destruct (require_resolve "odiff-bin") as [e|p]; simpl; [reflexivity|].
  destruct (execSync _ w) as [[e|out] f]; reflexivity.
Qed.

Lemma compare_catch_expected `{Host} (e : JsError) (r : OdiffReturnType) (w : World) :
  expectedDiff e = Some r -> compare_catch e w = (Normal r, w).
Proof. intros E. unfold compare_catch. now rewrite E. Qed.

Lemma compare_catch_unexpected `{Host} (e : JsError) (w : World) :
  expectedDiff e = None -> compare_catch e w = (Throw e, with_diagnostics e w).
Proof.
  intros E. unfold compare_catch. rewrite E.
  unfold with_diagnostics, diagnostics, bind, stderr_write, modify, throw, ret, add_stderr.
  destruct (status e) as [s|], (output e) as [o|]; simpl;
    try destruct (s =? 0); simpl; rewrite <- ?app_assoc; reflexivity.
Qed.

(** What [expectedDiff] answers, by exit status. *)
Lemma expectedDiff_status (e : JsError) :
  expectedDiff e =
  match status e with
  | Some 21 => Some layoutOutcome
  | Some 22 => Some (pixelOutcome e)
  | _ => None
  end.
Proof.
  unfold expectedDiff, pixelOutcome, outputFields, layoutOutcome.
  destruct (status e) as [[|p|p]|]; try reflexivity.
  do 5 (try destruct p as [p|p|]; try reflexivity).
Qed.

(** The [catch] block, by exit status. *)
Lemma compare_catch_caught `{Host} (e : JsError) (w : World) :
  compare_catch e w = caught e w.
Proof.
  unfold caught. pose proof (expectedDiff_status e) as E.
  destruct (status e) as [[|p|p]|];
    try (now apply compare_catch_unexpected).
  do 5 (try destruct p as [p|p|]; try (now apply compare_catch_unexpected));
    now apply compare_catch_expected.
Qed.


(** The four cases on the example host: exit 0, 21, 22 and 3. *)
Example compare_runs :
  let run engine :=
    @compare (exampleHost engine) "received.png" "snapshot.png" "diff.png" exampleOptions
      (exampleWorld "none" ∅) in
  (run (inr EmptyString)).1 = Normal matchedOutcome
  /\ (run (inl (exitError 21 EmptyString))).1 = Normal layoutOutcome
  /\ (run (inl (exitError 22 "50;10"))).1
     = Normal {| match_ := false; reason := Some pixel_diff;
                 diffCount := JsNumber.of_Z 50; diffPercentage := of_ratio false 1 10 |}
  /\ (run (inl (exitError 3 "boom"))).1 = Throw (exitError 3 "boom")
  /\ stderr (run (inl (exitError 3 "boom"))).2
     = ["Error executing odiff image comparison in " ++ dquote
          ++ "@craft.co/jest-screenshot-odiff" ++ dquote;
        "Exit code: 3";
        newline ++ "boom" ++ newline]
  /\ stderr (run (inl (exitError 22 "50;10"))).2 = [].
Proof. repeat split. Qed.

(** Every outcome the adapter returns is one of the three it builds. *)
Lemma compare_returns `{Host} (a b diff : string) (options : OdiffOptions)
    (w w' : World) (o : OdiffReturnType) :
  compare a b diff options w = (Normal o, w') ->
  o = matchedOutcome \/ o = layoutOutcome
  \/ exists e, status e = Some 22 /\ o = pixelOutcome e.
Proof.
  assert (forall e w1, caught e w1 = (Normal o, w') ->
            o = matchedOutcome \/ o = layoutOutcome
            \/ exists e, status e = Some 22 /\ o = pixelOutcome e) as Caught.
  { intros e w1. unfold caught.
    pose proof (eq_refl (status e)) as E. revert E.
    generalize (status e) at 2 3. intros s E C.
    destruct s as [[|p|p]|]; try discriminate.
    do 5 (try destruct p as [p|p|]; try discriminate).
    - right. left. congruence.
    - right. right. exists e. split; [assumption|congruence]. }
  unfold compare, try_catch. rewrite compare_try_spec.
  destruct (require_resolve "odiff-bin") as [e|odiffPath].
  - rewrite compare_catch_caught. apply Caught.
  - cbv zeta. destruct ((execSync _ w).1) as [e|out].
    + rewrite compare_catch_caught. apply Caught.
    + intros C. left. congruence.
Qed.

(** C5: every outcome the adapter returns satisfies the invariant of the
    data model: a layout-diff reason comes with a count and a percentage
    of zero, and a matched outcome has no reason. *)
Theorem compare_outcome_invariant `{Host} (a b diff : string) (options : OdiffOptions)
    (w w' : World) (o : OdiffReturnType) :
  compare a b diff options w = (Normal o, w') ->
  (reason o = Some layout_diff -> diffCount o = zero /\ diffPercentage o = zero)
  /\ (match_ o = true -> reason o = None).
Proof.
  intros C. apply compare_returns in C.
  destruct C as [-> | [-> | (e & _ & ->)]]; simpl; split; intros E;
    try discriminate; auto.
Qed.

(** The invariant on a run whose engine reports different dimensions. *)
Lemma compare_outcome_invariant_witness :
  let host := exampleHost (inl (exitError 21 EmptyString)) in
  let w := exampleWorld "none" ∅ in
  let r := @compare host "received.png" "snapshot.png" "diff.png" exampleOptions w in
  r.1 = Normal layoutOutcome
  /\ (reason layoutOutcome = Some layout_diff ->
      diffCount layoutOutcome = zero /\ diffPercentage layoutOutcome = zero)
  /\ (match_ layoutOutcome = true -> reason layoutOutcome = None).
Proof.
  split; [reflexivity|].
  exact (@compare_outcome_invariant (exampleHost (inl (exitError 21 EmptyString)))
           "received.png" "snapshot.png" "diff.png" exampleOptions
           (exampleWorld "none" ∅) _ layoutOutcome eq_refl).
Defined.

(** C10: on exit status 22 the adapter concatenates the output, trims it
    and splits it on [;].  With whitespace around a [body] whose ends are
    not whitespace: when the body has no semicolon it is the only field,
    the count is [parseInt] of it and the percentage is the default, zero;
    when the body has a semicolon the count is [parseInt] of what is
    before the first one and the percentage is [parseFloat], over 100, of
    what is between the first one and the next one or the end, so the
    default does not apply, not even when that field is empty.  The count
    is always read from the first field and never from its default: for
    an empty body it is [parseInt] of the empty string, NaN, which is not
    a non-negative integer. *)
Theorem pixel_diff_fields_and_defaults `{Host} (a b diff odiffPath : string)
    (options : OdiffOptions) (w : World) (e : JsError) (lead body trail : string) :
  require_resolve "odiff-bin" = inr odiffPath ->
  (execSync (odiffCommand odiffPath a b diff options) w).1 = inl e ->
  status e = Some 22 ->
  concatenated (default [] (output e)) = lead ++ body ++ trail ->
  all_chars isWhiteSpace lead = true ->
  all_chars isWhiteSpace trail = true ->
  trimmed body = true ->
  let outcome count percentage :=
    Normal {| match_ := false; reason := Some pixel_diff;
              diffCount := count; diffPercentage := percentage |} in
  let result := (compare a b diff options w).1 in
  (noSemicolon body = true -> result = outcome (parseInt body) zero)
  /\ (forall first second,
        body = first ++ ";" ++ second ->
        noSemicolon first = true -> noSemicolon second = true ->
        result = outcome (parseInt first) (div (parseFloat second) hundred))
  /\ (forall first second more,
        body = first ++ ";" ++ second ++ ";" ++ more ->
        noSemicolon first = true -> noSemicolon second = true ->
        result = outcome (parseInt first) (div (parseFloat second) hundred))
  /\ (body = EmptyString ->
      result = outcome (parseInt EmptyString) zero
      /\ parseInt EmptyString = NaN
      /\ is_nonneg_integer (parseInt EmptyString) = false).
Proof.
  intros Found Run Status Out L T B outcome result.
  assert (result = Normal (pixelOutcome e)) as R.
  { unfold result, compare, try_catch. rewrite compare_try_spec, Found. cbv zeta.
    rewrite Run, compare_catch_caught. unfold caught. now rewrite Status. }
  assert (outputFields e = split ";" body) as F.
  { unfold outputFields. now rewrite join_concatenated, Out, trim_core. }
  rewrite R. unfold pixelOutcome, outcome. rewrite F. clear R F.
  split; [|split; [|split]].
  - intros S. now rewrite split_single.
  - intros first second -> S1 S2.
    change (first ++ ";" ++ second) with (first ++ String ";" second).
    now rewrite split_first, split_single.
  - intros first second more -> S1 S2.
    change (first ++ ";" ++ second ++ ";" ++ more)
      with (first ++ String ";" (second ++ String ";" more)).
    now rewrite !split_first.
  - intros ->. repeat split.
Qed.

(** An engine that exits with 22 and prints nothing, and one that prints
    [50;10] and a line end. *)
Lemma pixel_diff_fields_and_defaults_witness :
  let run out :=
    (@compare (exampleHost (inl (exitError 22 out))) "received.png" "snapshot.png"
       "diff.png" exampleOptions (exampleWorld "none" ∅)).1 in
  run EmptyString
  = Normal {| match_ := false; reason := Some pixel_diff;
              diffCount := NaN; diffPercentage := zero |}
  /\ run ("50;10" ++ newline)
     = Normal {| match_ := false; reason := Some pixel_diff;
                 diffCount := parseInt "50";
                 diffPercentage := div (parseFloat "10") hundred |}.
Proof.
  intros run. split.
  - exact (proj1 (proj2 (proj2 (proj2
      (@pixel_diff_fields_and_defaults (exampleHost (inl (exitError 22 EmptyString)))
         "received.png" "snapshot.png" "diff.png" "/repo/node_modules/odiff-bin/odiff.js"
         exampleOptions (exampleWorld "none" ∅) (exitError 22 EmptyString)
         EmptyString EmptyString EmptyString
         eq_refl eq_refl eq_refl eq_refl eq_refl eq_refl eq_refl))) eq_refl)).
  - exact (proj1 (proj2
      (@pixel_diff_fields_and_defaults (exampleHost (inl (exitError 22 ("50;10" ++ newline))))
         "received.png" "snapshot.png" "diff.png" "/repo/node_modules/odiff-bin/odiff.js"
         exampleOptions (exampleWorld "none" ∅) (exitError 22 ("50;10" ++ newline))
         EmptyString "50;10" newline
         eq_refl eq_refl eq_refl eq_refl eq_refl eq_refl eq_refl)) "50" "10"
      eq_refl eq_refl eq_refl).
Defined.

(** The engine exits with 22 and prints nothing: the adapter returns a
    pixel-diff outcome whose count is NaN. *)
Example compare_empty_output :
  let host := exampleHost (inl (exitError 22 EmptyString)) in
  let r := @compare host "received.png" "snapshot.png" "diff.png" exampleOptions
             (exampleWorld "none" ∅) in
  r.1 = Normal {| match_ := false; reason := Some pixel_diff;
                  diffCount := NaN; diffPercentage := zero |}.
Proof. reflexivity. Qed.

(** The engine exits with 22 and prints a count and a percentage. *)
Example compare_pixel_output :
  let host := exampleHost (inl (exitError 22 "50;10")) in
  let r := @compare host "received.png" "snapshot.png" "diff.png" exampleOptions
             (exampleWorld "none" ∅) in
  r.1 = Normal {| match_ := false; reason := Some pixel_diff;
                  diffCount := JsNumber.of_Z 50;
                  diffPercentage := of_ratio false 1 10 |}.
Proof. reflexivity. Qed.

(** ** JavaScript numbers: comparison and small integers *)

(** [x > x] never holds, NaN included. *)
Lemma gt_irrefl (x : number) : gt x x = false.
Proof.
  unfold gt, SFltb, SFcompare.
  destruct x as [s|s| |s m e]; try destruct s; try reflexivity;
    rewrite Z.compare_refl;
    change (Pos.compare_cont Eq m m) with (Pos.compare m m);
    now rewrite Pos.compare_refl.
Qed.

Lemma digits2_size p : digits2_pos p = Pos.size p.
Proof. induction p; simpl; congruence. Qed.

Lemma iter_xO_Z p k : Zpos (Pos.iter xO p k) = Zpos p * 2 ^ Zpos k.
Proof.
  induction k using Pos.peano_ind.
  - simpl. lia.
  - rewrite Pos.iter_succ, Pos2Z.inj_succ, Z.pow_succ_r by lia.
    rewrite Pos2Z.inj_xO, IHk. lia.
Qed.

Lemma digits2_iter_xO p k : digits2_pos (Pos.iter xO p k) = (digits2_pos p + k)%positive.
Proof.
  induction k using Pos.peano_ind.
  - simpl. lia.
  - rewrite Pos.iter_succ. simpl. rewrite IHk. lia.
Qed.

Lemma aligned_digits p : Zpos (digits2_pos p) <= 53 ->
  Zpos (digits2_pos (fst (aligned p))) = 53 /\ snd (aligned p) = Zpos (digits2_pos p) - 53.
Proof.
  intros D. unfold aligned, shl_align.
  destruct (Zpos (digits2_pos p) - 53 - 0) as [|k|k] eqn:E; simpl.
  - lia.
  - lia.
  - rewrite digits2_iter_xO. lia.
Qed.

Lemma of_Z_pos p : Zpos (digits2_pos p) <= 53 ->
  JsNumber.of_Z (Zpos p) = S754_finite false (fst (aligned p)) (Zpos (digits2_pos p) - 53).
Proof.
  intros D. destruct (aligned_digits p D) as [Dm De].
  unfold JsNumber.of_Z, binary_normalize, binary_round.
  replace (fexp prec emax (Zpos (digits2_pos p) + 0)) with (Zpos (digits2_pos p) - 53)
    by (unfold fexp, emin, prec, emax; lia).
  fold (aligned p). destruct (aligned p) as [mz ez]. simpl in Dm, De. subst ez.
  unfold binary_round_aux, shr_fexp. simpl Zdigits2. rewrite Dm.
  replace (fexp prec emax (53 + (Zpos (digits2_pos p) - 53)) - (Zpos (digits2_pos p) - 53)) with 0
    by (unfold fexp, emin, prec, emax; lia).
  simpl. rewrite Dm.
  replace (fexp prec emax (53 + (Zpos (digits2_pos p) - 53)) - (Zpos (digits2_pos p) - 53)) with 0
    by (unfold fexp, emin, prec, emax; lia).
  simpl.
  replace (Zpos (digits2_pos p) - 53 <=? emax - prec) with true; [reflexivity|].
  symmetry. apply Z.leb_le. unfold emax, prec. lia.
Qed.

Lemma size_bounds p : 2 ^ Zpos (Pos.size p) <= 2 * Zpos p /\ Zpos p < 2 ^ Zpos (Pos.size p).
Proof.
  pose proof (Pos.size_le p) as L. pose proof (Pos.size_gt p) as G.
  apply Pos2Z.pos_le_pos in L. apply Pos2Z.pos_lt_pos in G.
  rewrite Pos2Z.inj_pow in L, G.
  change (Z.pos p~0) with (2 * Z.pos p) in L. change (Z.pos 2) with 2 in L.
  split; assumption.
Qed.

Lemma digits2_mono p q : (p <= q)%positive -> Zpos (digits2_pos p) <= Zpos (digits2_pos q).
Proof.
  intros L. rewrite !digits2_size.
  destruct (Z.le_gt_cases (Zpos (Pos.size p)) (Zpos (Pos.size q))) as [|G]; [assumption|].
  exfalso.
  destruct (size_bounds p) as [Lp _]. destruct (size_bounds q) as [_ Gq].
  assert (2 ^ (Zpos (Pos.size q) + 1) <= 2 ^ Zpos (Pos.size p)) as P
    by (apply Z.pow_le_mono_r; lia).
  rewrite Z.pow_add_r in P by lia. lia.
Qed.

Lemma digits2_small p : Zpos p < 2 ^ 53 -> Zpos (digits2_pos p) <= 53.
Proof.
  intros B. rewrite digits2_size.
  destruct (Z.le_gt_cases (Zpos (Pos.size p)) 53) as [|G]; [assumption|].
  exfalso. destruct (size_bounds p) as [Lp _].
  assert (2 ^ 54 <= 2 ^ Zpos (Pos.size p)) as P by (apply Z.pow_le_mono_r; lia).
  change (2 ^ 54) with (2 * 2 ^ 53) in P. lia.
Qed.

Lemma aligned_value p : Zpos (digits2_pos p) <= 53 ->
  Zpos (fst (aligned p)) = Zpos p * 2 ^ (53 - Zpos (digits2_pos p)).
Proof.
  intros D. unfold aligned, shl_align.
  destruct (Zpos (digits2_pos p) - 53 - 0) as [|k|k] eqn:E; simpl fst.
  - replace (53 - Zpos (digits2_pos p)) with 0 by lia. lia.
  - lia.
  - rewrite iter_xO_Z. f_equal. f_equal. lia.
Qed.

Lemma of_Z_succ_gt z : 0 <= z < 2 ^ 53 -> gt (JsNumber.of_Z (z + 1)) (JsNumber.of_Z z) = true.
Proof.
  intros [L U].
  destruct (Z.eq_dec z 0) as [->|NZ]; [reflexivity|].
  destruct (Z.eq_dec z (2 ^ 53 - 1)) as [->|NM]; [vm_compute; reflexivity|].
  destruct z as [|p|p]; try lia.
  replace (Zpos p + 1) with (Zpos (p + 1)) by lia.
  assert (Zpos (digits2_pos p) <= 53) as Dp by (apply digits2_small; lia).
  assert (Zpos (digits2_pos (p + 1)) <= 53) as Dq by (apply digits2_small; lia).
  rewrite !of_Z_pos by assumption.
  pose proof (digits2_mono p (p + 1) ltac:(lia)) as Mono.
  unfold gt, SFltb, SFcompare.
  destruct (Z.compare_spec (Zpos (digits2_pos p) - 53) (Zpos (digits2_pos (p + 1)) - 53))
    as [E|E|E]; try reflexivity; try lia.
  assert (fst (aligned p) < fst (aligned (p + 1)))%positive as Lt.
  { assert (Zpos (fst (aligned p)) < Zpos (fst (aligned (p + 1)))) as Zlt; [|lia].
    rewrite !aligned_value by assumption.
    replace (Zpos (digits2_pos (p + 1))) with (Zpos (digits2_pos p)) by lia.
    apply Z.mul_lt_mono_pos_r; [apply Z.pow_pos_nonneg; lia | lia]. }
  change (Pos.compare_cont Eq ?a ?b) with (Pos.compare a b).
  now rewrite (proj2 (Pos.compare_lt_iff _ _) Lt).
Qed.

(** ** The verdict engine *)

(** [checkImages] is [compare] followed by the verdict on its outcome; an
    error of [compare] goes through. *)
Lemma checkImages_eq `{Host} (snapshotPath receivedPath diffPath : string) (n : Z)
    (cfg : JestScreenshotConfiguration) (w : World) :
  checkImages snapshotPath receivedPath diffPath n cfg w =
  match compare receivedPath snapshotPath diffPath (checkOptions cfg) w with
  | (Normal o, w') => (Normal (verdict n cfg o), w')
  | (Throw e, w') => (Throw e, w')
  end.
Proof.
  unfold checkImages, bind, checkOptions.
  destruct (compare _ _ _ _ w) as [[o|e] w']; reflexivity.
Qed.

Lemma caught_effects `{Host} (e : JsError) (w : World) :
  effects (caught e w).2 = effects w.
Proof.
  unfold caught. destruct (status e) as [[|p|p]|]; try reflexivity.
  do 5 (try destruct p as [p|p|]; try reflexivity).
Qed.

(** All [checkImages] does to the file system and to child processes is
    to run the engine, once, when the binary is found. *)
Lemma checkImages_effects `{Host} (snapshotPath receivedPath diffPath : string) (n : Z)
    (cfg : JestScreenshotConfiguration) (w : World) :
  exists engine,
    effects (checkImages snapshotPath receivedPath diffPath n cfg w).2
    = (effects w ++ engine)%list
    /\ (engine = [] \/ exists command, engine = [ExecSync command]).
Proof.
  rewrite checkImages_eq. unfold compare, try_catch. rewrite compare_try_spec.
  destruct (require_resolve "odiff-bin") as [e|odiffPath].
  - exists []. rewrite app_nil_r. split; [|now left].
    rewrite compare_catch_caught. rewrite <- (caught_effects e w).
    now destruct (caught e w) as [[o|e'] w1].
  - cbv zeta.
    set (command := odiffCommand odiffPath receivedPath snapshotPath diffPath
                      (checkOptions cfg)).
    set (w1 := ran command w).
    exists [ExecSync command]. split; [|right; now exists command].
    rewrite <- (ran_effects command w). fold w1.
    destruct ((execSync command w).1) as [e|out]; [|reflexivity].
    rewrite compare_catch_caught.
    rewrite <- (caught_effects e w1).
    now destruct (caught e w1) as [[o|e'] w2].
Qed.

(** The code decides as the policy of the specification does. *)
Lemma verdict_policy `{Host} (n : Z) (cfg : JestScreenshotConfiguration)
    (o : OdiffReturnType) :
  verdict n cfg o = render n o (policy cfg o).
Proof.
  unfold verdict, policy, render, exceeded, absoluteRule, relativeRule, dimensionRule,
    isLayoutDiff, firstMatch.
  destruct (pixelThresholdAbsolute cfg) as [t|]; [destruct (gt (diffCount o) t)|];
    try reflexivity;
    (destruct (pixelThresholdRelative cfg) as [r|]; [destruct (gt (diffPercentage o) r)|]);
    try reflexivity;
    destruct (match_ o), (reason o) as [[]|]; reflexivity.
Qed.

Lemma pass_render `{Host} (n : Z) (o : OdiffReturnType) (rule : option Rule) :
  pass (render n o rule) = match rule with Some _ => false | None => true end.
Proof. destruct rule as [[]|]; reflexivity. Qed.

Lemma exceeded_self (x : number) : exceeded x (Some x) = None.
Proof. unfold exceeded. now rewrite gt_irrefl. Qed.

(** C1: the verdict engine evaluates the failure rules in the order
    absolute threshold, relative threshold, dimension mismatch, and passes
    when none matches; both thresholds are strict.  [checkImages] returns
    the verdict on the outcome of [compare]; the verdict is the result of
    the first rule of the policy that matches; a count equal to the
    absolute threshold leaves the verdict as if that threshold were not
    configured, and a count of [T + 1] for an integer [T] fails on the
    absolute rule; a percentage equal to the relative threshold leaves
    the verdict as if that threshold were not configured, and any
    percentage above it fails. *)
Theorem checkImages_precedence `{Host} (snapshotPath receivedPath diffPath : string)
    (n : Z) (cfg : JestScreenshotConfiguration) (w : World) (o : OdiffReturnType) (z : Z) :
  0 <= z < 2 ^ 53 ->
  checkImages snapshotPath receivedPath diffPath n cfg w =
    match compare receivedPath snapshotPath diffPath (checkOptions cfg) w with
    | (Normal o, w') => (Normal (verdict n cfg o), w')
    | (Throw e, w') => (Throw e, w')
    end
  /\ verdict n cfg o =
       match policy cfg o with
       | Some (AbsoluteThreshold limit) => absoluteFailure n limit o
       | Some (RelativeThreshold limit) => relativeFailure n limit o
       | Some DimensionMismatch => dimensionFailure n o
       | None => passed
       end
  /\ pass (verdict n cfg o) = match policy cfg o with Some _ => false | None => true end
  /\ (forall R, verdict n (with_thresholds (Some (diffCount o)) R cfg) o
                = verdict n (with_thresholds None R cfg) o)
  /\ (forall R m r p,
        let o' := {| match_ := m; reason := r;
                     diffCount := JsNumber.of_Z (z + 1); diffPercentage := p |} in
        verdict n (with_thresholds (Some (JsNumber.of_Z z)) R cfg) o'
        = absoluteFailure n (JsNumber.of_Z z) o')
  /\ (forall T, verdict n (with_thresholds T (Some (diffPercentage o)) cfg) o
                = verdict n (with_thresholds T None cfg) o)
  /\ (forall T R, gt (diffPercentage o) R = true ->
                  pass (verdict n (with_thresholds T (Some R) cfg) o) = false).
Proof.
  intros Range. split; [apply checkImages_eq|].
  split; [apply verdict_policy|].
  split; [rewrite verdict_policy; apply pass_render|].
  split; [|split; [|split]].
  - intros R. unfold verdict.
    cbn [with_thresholds pixelThresholdAbsolute pixelThresholdRelative].
    now rewrite exceeded_self.
  - intros R m r p o'. unfold verdict, exceeded.
    cbn [with_thresholds pixelThresholdAbsolute diffCount o'].
    now rewrite (of_Z_succ_gt z Range).
  - intros T. unfold verdict.
    cbn [with_thresholds pixelThresholdAbsolute pixelThresholdRelative].
    now rewrite exceeded_self.
  - intros T R G. unfold verdict, exceeded.
    cbn [with_thresholds pixelThresholdAbsolute pixelThresholdRelative]. rewrite G.
    destruct T as [t|]; [destruct (gt (diffCount o) t)|]; reflexivity.
Qed.

(** The boundary of the absolute rule at a threshold of 10 pixels. *)
Lemma checkImages_precedence_witness :
  let host := exampleHost (inl (exitError 22 "11;1")) in
  let at_count c :=
    {| match_ := false; reason := Some pixel_diff;
       diffCount := JsNumber.of_Z c; diffPercentage := of_ratio false 1 100 |} in
  let cfg := with_thresholds (Some (JsNumber.of_Z 10)) None exampleConfiguration in
  0 <= 10 < 2 ^ 53
  /\ pass (@verdict host 1 cfg (at_count 10)) = true
  /\ pass (@verdict host 1 cfg (at_count 11)) = false.
Proof.
  intros host at_count cfg.
  assert (0 <= 10 < 2 ^ 53) as Range by (split; [discriminate | reflexivity]).
  pose proof (@checkImages_precedence host "snapshot.png" "received.png" "diff.png" 1
                exampleConfiguration (exampleWorld "none" ∅) (at_count 10) 10 Range)
    as (_ & _ & _ & Same & Above & _).
  split; [exact Range|]. split.
  - change cfg with (with_thresholds (Some (diffCount (at_count 10))) None
                       exampleConfiguration).
    rewrite (Same None). reflexivity.
  - change cfg with (with_thresholds (Some (JsNumber.of_Z 10)) None
                       exampleConfiguration).
    change (at_count 11) with
      {| match_ := false; reason := Some pixel_diff;
         diffCount := JsNumber.of_Z (10 + 1); diffPercentage := of_ratio false 1 100 |}.
    rewrite (Above None false (Some pixel_diff) (of_ratio false 1 100)). reflexivity.
Defined.

(** C2 as stated fails: the engine reports 50 differing pixels (10 percent),
    no threshold is configured, and the verdict passes. *)
Lemma pixel_diff_without_thresholds_passes :
  let host := exampleHost (inl (exitError 22 "50;10")) in
  let o := {| match_ := false; reason := Some pixel_diff;
              diffCount := JsNumber.of_Z 50; diffPercentage := of_ratio false 1 10 |} in
  (@compare host "received.png" "snapshot.png" "diff.png"
     (checkOptions exampleConfiguration) (exampleWorld "none" ∅)).1 = Normal o
  /\ gt (diffCount o) zero = true
  /\ pixelThresholdAbsolute exampleConfiguration = None
  /\ pixelThresholdRelative exampleConfiguration = None
  /\ (@checkImages host "snapshot.png" "received.png" "diff.png" 1 exampleConfiguration
        (exampleWorld "none" ∅)).1 = Normal passed
  /\ pass passed = true.
Proof. repeat split. Qed.

(** C2, amended: with neither threshold configured, an outcome whose
    reason is a pixel difference passes, whatever its count: the verdict
    engine has no rule for a pixel difference besides the two thresholds. *)
Theorem pixel_diff_needs_threshold `{Host} (snapshotPath receivedPath diffPath : string)
    (n : Z) (cfg : JestScreenshotConfiguration) (w w' : World) (o : OdiffReturnType) :
  pixelThresholdAbsolute cfg = None ->
  pixelThresholdRelative cfg = None ->
  reason o = Some pixel_diff ->
  verdict n cfg o = passed
  /\ (compare receivedPath snapshotPath diffPath (checkOptions cfg) w = (Normal o, w') ->
      checkImages snapshotPath receivedPath diffPath n cfg w = (Normal passed, w')).
Proof.
  intros A R P.
  assert (verdict n cfg o = passed) as V.
  { unfold verdict, exceeded, isLayoutDiff. rewrite A, R, P.
    now destruct (match_ o). }
  split; [exact V|].
  intros C. rewrite checkImages_eq, C. now rewrite V.
Qed.

Lemma pixel_diff_needs_threshold_witness :
  let host := exampleHost (inl (exitError 22 "50;10")) in
  let o := {| match_ := false; reason := Some pixel_diff;
              diffCount := JsNumber.of_Z 50; diffPercentage := of_ratio false 1 10 |} in
  @verdict host 1 exampleConfiguration o = passed
  /\ (@checkImages host "snapshot.png" "received.png" "diff.png" 1 exampleConfiguration
        (exampleWorld "none" ∅)).1 = Normal passed.
Proof.
  intros host o.
  destruct (@pixel_diff_needs_threshold host "snapshot.png" "received.png" "diff.png" 1
              exampleConfiguration (exampleWorld "none" ∅)
              (@compare host "received.png" "snapshot.png" "diff.png"
                 (checkOptions exampleConfiguration) (exampleWorld "none" ∅)).2
              o eq_refl eq_refl eq_refl) as [V C].
  split; [exact V|]. now rewrite (C eq_refl).
Defined.

(** The verdict on an outcome without any difference, under thresholds
    that are not negative. *)
Lemma verdict_no_difference `{Host} (n : Z) (cfg : JestScreenshotConfiguration) :
  not_negative (pixelThresholdAbsolute cfg) = true ->
  not_negative (pixelThresholdRelative cfg) = true ->
  verdict n cfg matchedOutcome = passed.
Proof.
  unfold not_negative, verdict, exceeded, matchedOutcome. simpl.
  destruct (pixelThresholdAbsolute cfg) as [t|], (pixelThresholdRelative cfg) as [r|];
    simpl; intros A R;
    repeat match goal with
           | E : negb ?b = true |- _ => apply negb_true_iff in E; rewrite E
           end; reflexivity.
Qed.

(** The verdict on an outcome without any difference fails as soon as a
    threshold is below zero: zero exceeds it. *)
Lemma verdict_no_difference_pass `{Host} (n : Z) (cfg : JestScreenshotConfiguration) :
  pass (verdict n cfg matchedOutcome)
  = not_negative (pixelThresholdAbsolute cfg) && not_negative (pixelThresholdRelative cfg).
Proof.
  unfold not_negative, verdict, exceeded, matchedOutcome. simpl.
  destruct (pixelThresholdAbsolute cfg) as [t|], (pixelThresholdRelative cfg) as [r|];
    simpl; repeat (match goal with |- context [gt zero ?x] => destruct (gt zero x) end);
    reflexivity.
Qed.

(** C3 as stated fails: the engine finds the images identical (a count of
    zero, no reason), the absolute threshold is configured as -1, and the
    verdict fails, since zero exceeds the threshold. *)
Lemma no_difference_fails_below_zero :
  let host := exampleHost (inr EmptyString) in
  let cfg := with_thresholds (Some (JsNumber.of_Z (-1))) None exampleConfiguration in
  let w := exampleWorld "none" ∅ in
  let r := @absoluteFailure host 1 (JsNumber.of_Z (-1)) matchedOutcome in
  (@compare host "received.png" "snapshot.png" "diff.png" (checkOptions cfg) w).1
  = Normal matchedOutcome
  /\ diffCount matchedOutcome = zero
  /\ reason matchedOutcome = None
  /\ (@checkImages host "snapshot.png" "received.png" "diff.png" 1 cfg w).1 = Normal r
  /\ pass r = false.
Proof. repeat split. Qed.

(** C3, amended: an outcome with a count of zero and no reason passes
    exactly when no configured pixel threshold is below zero.  The code
    compares the count and the percentage, both zero, with the thresholds
    as they are configured, without a check of their sign: under a
    threshold of zero or more, or one that is NaN, no rule fires; under a
    threshold below zero the first one that is fires. *)
Theorem no_difference_passes `{Host} (snapshotPath receivedPath diffPath : string)
    (n : Z) (cfg : JestScreenshotConfiguration) (w w' : World) (o : OdiffReturnType) :
  compare receivedPath snapshotPath diffPath (checkOptions cfg) w = (Normal o, w') ->
  diffCount o = zero ->
  reason o = None ->
  checkImages snapshotPath receivedPath diffPath n cfg w = (Normal (verdict n cfg o), w')
  /\ pass (verdict n cfg o)
     = not_negative (pixelThresholdAbsolute cfg)
       && not_negative (pixelThresholdRelative cfg)
  /\ (not_negative (pixelThresholdAbsolute cfg) = true ->
      not_negative (pixelThresholdRelative cfg) = true ->
      checkImages snapshotPath receivedPath diffPath n cfg w = (Normal passed, w')).
Proof.
  intros C _ N.
  assert (o = matchedOutcome) as ->.
  { destruct (compare_returns _ _ _ _ _ _ _ C) as [-> | [-> | (e & _ & ->)]];
      [reflexivity | discriminate | discriminate]. }
  rewrite checkImages_eq, C. split; [reflexivity|].
  split; [apply verdict_no_difference_pass|].
  intros A R. now rewrite verdict_no_difference.
Qed.

Lemma no_difference_passes_witness :
  let host := exampleHost (inr EmptyString) in
  let cfg := with_thresholds (Some zero) (Some zero) exampleConfiguration in
  (@checkImages host "snapshot.png" "received.png" "diff.png" 1 cfg
     (exampleWorld "none" ∅)).1 = Normal passed.
Proof.
  intros host cfg.
  destruct (@no_difference_passes host "snapshot.png" "received.png" "diff.png" 1 cfg
              (exampleWorld "none" ∅)
              (@compare host "received.png" "snapshot.png" "diff.png"
                 (checkOptions cfg) (exampleWorld "none" ∅)).2
              matchedOutcome eq_refl eq_refl eq_refl) as (_ & _ & C).
  now rewrite (C eq_refl eq_refl).
Defined.

(** ** The snapshot lifecycle *)

Lemma outside_jest_throws `{Host} (this : ThisValue) (received : string)
    (cfg : JestScreenshotConfiguration) (parameters : ToMatchImageSnapshotParameters)
    (w : World) :
  isJestTestConfiguration this = None ->
  toMatchImageSnapshot this received cfg parameters w = (Throw outsideJest, w).
Proof. unfold toMatchImageSnapshot. intros ->. reflexivity. Qed.

Lemma negated_throws `{Host} (this : ThisValue) (jest : JestTestConfiguration)
    (received : string) (cfg : JestScreenshotConfiguration)
    (parameters : ToMatchImageSnapshotParameters) (w : World) :
  isJestTestConfiguration this = Some jest -> isNot jest = true ->
  toMatchImageSnapshot this received cfg parameters w = (Throw negated, w).
Proof. unfold toMatchImageSnapshot. intros -> ->. reflexivity. Qed.

(** C9: a call outside a Jest context, or a negated call, throws; the
    world is the one the call started in, so the error comes before any
    counter is touched and before any file is looked at. *)
Theorem usage_errors_throw_first `{Host} (this : ThisValue) (received : string)
    (cfg : JestScreenshotConfiguration) (parameters : ToMatchImageSnapshotParameters)
    (w : World) :
  (isJestTestConfiguration this = None ->
   toMatchImageSnapshot this received cfg parameters w = (Throw outsideJest, w))
  /\ (forall jest, isJestTestConfiguration this = Some jest -> isNot jest = true ->
      toMatchImageSnapshot this received cfg parameters w = (Throw negated, w)).
Proof.
  split; [apply outside_jest_throws | intros jest; apply negated_throws].
Qed.

Lemma writesNew_spec (update : string) :
  writesNew update = true <-> update = "new" \/ update = "all".
Proof.
  unfold writesNew. rewrite orb_true_iff, !String.eqb_eq. reflexivity.
Qed.




(** *** What a call leaves untouched in the snapshot state *)

Section Preserves.

Context `{Host} {X : Type} (g : SnapshotState -> X).

Lemma preserves_ret {A} (a : A) : preserves g (ret a).
Proof. intros w. reflexivity. Qed.

Lemma preserves_throw {A} (e : JsError) : preserves g (@throw A e).
Proof. intros w. reflexivity. Qed.

Lemma preserves_bind {A B} (m : M A) (k : A -> M B) :
  preserves g m -> (forall a, preserves g (k a)) -> preserves g (bind m k).
Proof.
  intros Pm Pk w. unfold bind. specialize (Pm w).
  destruct (m w) as [[a|e] w']; simpl in *; [|exact Pm].
  now rewrite Pk.
Qed.

Lemma preserves_try_catch {A} (m : M A) (k : JsError -> M A) :
  preserves g m -> (forall e, preserves g (k e)) -> preserves g (try_catch m k).
Proof.
  intros Pm Pk w. unfold try_catch. specialize (Pm w).
  destruct (m w) as [[a|e] w']; simpl in *; [exact Pm|].
  now rewrite Pk.
Qed.

Lemma preserves_modify_snapshotState (f : SnapshotState -> SnapshotState) :
  (forall st, g (f st) = g st) -> preserves g (modify_snapshotState f).
Proof. intros F w. apply F. Qed.

Lemma preserves_stderr_write (s : string) : preserves g (stderr_write s).
Proof. intros w. reflexivity. Qed.

Lemma preserves_existsSync (p : string) : preserves g (existsSync p).
Proof. intros w. reflexivity. Qed.

Lemma preserves_mkdirp (dir : string) : preserves g (mkdirp dir).
Proof. intros w. reflexivity. Qed.

Lemma preserves_writeFileSync (p data : string) : preserves g (writeFileSync p data).
Proof. intros w. reflexivity. Qed.

Lemma preserves_copyFileSync (src dest : string) : preserves g (copyFileSync src dest).
Proof. intros w. unfold copyFileSync. now destruct (files w !! src). Qed.

Lemma preserves_mkdtempSync (prefix : string) : preserves g (mkdtempSync prefix).
Proof. intros w. reflexivity. Qed.

Lemma preserves_exec (command : string) : preserves g (exec command).
Proof.
  intros w. unfold exec.
  now destruct (execSync command w) as [[e|out] f], (execSync_stderr command w).
Qed.

Lemma preserves_resolve (request : string) : preserves g (resolve request).
Proof. intros w. unfold resolve. now destruct (require_resolve request). Qed.

Lemma preserves_get_snapshotState : preserves g get_snapshotState.
Proof. intros w. reflexivity. Qed.

Lemma preserves_call_message (m : option (unit -> string)) : preserves g (call_message m).
Proof. intros w. now destruct m. Qed.

End Preserves.

Create HintDb preserves.

#[local] Hint Resolve preserves_ret preserves_throw preserves_stderr_write
  preserves_existsSync preserves_mkdirp preserves_writeFileSync preserves_copyFileSync
  preserves_mkdtempSync preserves_exec preserves_resolve preserves_get_snapshotState
  preserves_call_message : preserves.

(** Walks a computation: binds and handlers first, then the branches. *)
Ltac preserve :=
  repeat first
    [ solve [auto with preserves]
    | apply preserves_bind; [|intros ?]
    | apply preserves_try_catch; [|intros ?]
    | match goal with
      | |- preserves _ (if ?c then _ else _) => destruct c
      | |- preserves _ (match ?x with _ => _ end) => destruct x
      end ].

Lemma preserves_compare `{Host} {X} (g : SnapshotState -> X) (a b diff : string)
    (options : OdiffOptions) :
  preserves g (compare a b diff options).
Proof. unfold compare, compare_try, compare_catch. preserve. Qed.

Lemma preserves_checkImages `{Host} {X} (g : SnapshotState -> X)
    (snapshotPath receivedPath diffPath : string) (n : Z)
    (cfg : JestScreenshotConfiguration) :
  preserves g (checkImages snapshotPath receivedPath diffPath n cfg).
Proof.
  unfold checkImages.
  apply preserves_bind; [apply preserves_compare | intros o; apply preserves_ret].
Qed.

#[local] Hint Resolve preserves_compare preserves_checkImages : preserves.

#[local] Hint Extern 1 (preserves _ (modify_snapshotState _)) =>
  apply preserves_modify_snapshotState; reflexivity : preserves.

(** C7: the reference exists, the verdict on the staged comparison fails
    and the update mode is [all]: the call overwrites the reference with
    the received bytes, adds one to the updated counter and passes.  Its
    effects are the preparation of the comparison, the run of the engine
    and that one write: no report bundle is written. *)
Theorem failing_comparison_updates `{Host} (this : ThisValue) (jest : JestTestConfiguration)
    (received : string) (cfg : JestScreenshotConfiguration)
    (parameters : ToMatchImageSnapshotParameters) (w compared : World)
    (result : ImageMatcherResult) :
  isJestTestConfiguration this = Some jest ->
  isNot jest = false ->
  is_Some (files w !! referencePath jest cfg parameters w) ->
  _updateSnapshot (snapshotState w) = "all" ->
  checkImages (referencePath jest cfg parameters w)
    (path_join (temporaryDir jest cfg parameters w) "received.png")
    (path_join (temporaryDir jest cfg parameters w) "diff.png")
    (occurrence jest w) cfg (stagedWorld jest received cfg parameters w)
  = (Normal result, compared) ->
  pass result = false ->
  let snapshotPath := referencePath jest cfg parameters w in
  let final :=
    {| files := <[snapshotPath := received]> (files compared);
       effects := effects compared ++ [WriteFileSync snapshotPath received];
       stderr := stderr compared;
       snapshotState := increment_updated (countedState jest w) |} in
  toMatchImageSnapshot this received cfg parameters w = (Normal passed, final)
  /\ files final !! snapshotPath = Some received
  /\ updated (snapshotState final) = updated (snapshotState w) + 1
  /\ pass passed = true
  /\ exists engine,
       effects final
       = (effects w
          ++ [Mkdirp (path_dirname snapshotPath);
              ExistsSync snapshotPath;
              MkdtempSync (temporaryDir jest cfg parameters w);
              WriteFileSync (path_join (temporaryDir jest cfg parameters w) "received.png")
                received]
          ++ engine
          ++ [WriteFileSync snapshotPath received])%list
       /\ (engine = [] \/ exists command, engine = [ExecSync command]).
Proof.
  intros J N Present All Check Fails. cbv zeta.
  split; [|split; [apply lookup_insert_eq|split; [reflexivity|split; [reflexivity|]]]];
    cycle 1.
  { destruct (checkImages_effects (referencePath jest cfg parameters w)
                (path_join (temporaryDir jest cfg parameters w) "received.png")
                (path_join (temporaryDir jest cfg parameters w) "diff.png")
                (occurrence jest w) cfg
                (stagedWorld jest received cfg parameters w)) as (engine & E & Shape).
    rewrite Check in E. cbn [snd] in E.
    exists engine. split; [|exact Shape].
    cbn [effects]. rewrite E. unfold stagedWorld, checkedWorld. cbn [effects].
    rewrite <- !app_assoc. reflexivity. }
  pose proof (preserves_checkImages (fun st => st)
                (referencePath jest cfg parameters w)
                (path_join (temporaryDir jest cfg parameters w) "received.png")
                (path_join (temporaryDir jest cfg parameters w) "diff.png")
                (occurrence jest w) cfg
                (stagedWorld jest received cfg parameters w)) as Kept.
  rewrite Check in Kept. cbn [snd stagedWorld snapshotState] in Kept.
  unfold toMatchImageSnapshot. rewrite J, N. cbv beta iota.
  do 5 step.
  change (set_counter (currentTestName jest)
            (nextSnapshotNumber (snapshotState w) (currentTestName jest))
            (snapshotState w)) with (countedState jest w).
  cbn [snapshotState set_snapshotState add_effect files].
  fold (referencePath jest cfg parameters w).
  rewrite bool_decide_eq_true_2 by exact Present.
  cbv beta iota. unfold negb.
  do 2 step.
  erewrite bind_normal by (etransitivity; [|exact Check]; unfold stagedWorld, checkedWorld,
    temporaryDir, checkedWorld, add_effect, set_files, set_snapshotState; cbn;
    rewrite <- !app_assoc; reflexivity).
  rewrite Fails, All. cbv beta iota. unfold negb.
  change (String.eqb "all" "all") with true. cbv iota.
  do 2 step. unfold ret, add_effect, set_files, set_snapshotState. cbn.
  rewrite Kept. reflexivity.
Qed.

(** Fifty pixels differ, ten are allowed, the update mode is [all]: the
    reference is overwritten and the call passes. *)
Lemma failing_comparison_updates_witness :
  let host := exampleHost (inl (exitError 22 "50;10")) in
  let cfg := with_thresholds (Some (JsNumber.of_Z 10)) None exampleConfiguration in
  let reference := "__snapshots__/home page-1.snap.png" in
  let w := exampleWorld "all" {[ reference := "OLD" ]} in
  let r := @toMatchImageSnapshot host exampleThis "PNG" cfg {| path := None |} w in
  r.1 = Normal passed
  /\ files r.2 !! reference = Some "PNG"
  /\ updated (snapshotState r.2) = 1.
Proof.
  intros host cfg reference w r.
  pose (jest := {| testPath := "/repo/home.test.ts"; currentTestName := "home page";
                   isNot := false |}).
  pose (params := {| path := None |}).
  pose (staged := @checkImages host (@referencePath host jest cfg params w)
                    (path_join (@temporaryDir host jest cfg params w) "received.png")
                    (path_join (@temporaryDir host jest cfg params w) "diff.png")
                    (occurrence jest w) cfg
                    (@stagedWorld host jest "PNG" cfg params w)).
  assert (is_Some (files w !! @referencePath host jest cfg params w)) as Present
    by (exists "OLD"; vm_compute; reflexivity).
  assert (staged = (Normal (@absoluteFailure host 1 (JsNumber.of_Z 10)
                              {| match_ := false; reason := Some pixel_diff;
                                 diffCount := JsNumber.of_Z 50;
                                 diffPercentage := of_ratio false 1 10 |}),
                    staged.2)) as Check
    by (vm_compute; reflexivity).
  destruct (@failing_comparison_updates host exampleThis jest "PNG" cfg params w
              staged.2 _ eq_refl eq_refl Present eq_refl Check eq_refl)
    as (E & F & U & _).
  assert (r = (Normal passed,
               {| files := <[@referencePath host jest cfg params w := "PNG"]>
                             (files staged.2);
                  effects := effects staged.2
                             ++ [WriteFileSync (@referencePath host jest cfg params w)
                                   "PNG"];
                  stderr := stderr staged.2;
                  snapshotState := increment_updated (countedState jest w) |})) as R
    by exact E.
  clearbody r. subst r. cbn [fst snd]. split; [reflexivity|]. split.
  - exact F.
  - exact U.
Defined.

(** *** Occurrence indices *)

Lemma or_zero_Some (v : Z) : or_zero (Some v) = v.
Proof. unfold or_zero. destruct (Z.eqb_spec v 0); congruence. Qed.

(** A call that gets past the usage checks stores its index back, and
    that is all it does to the counters, however it ends. *)
Lemma counters_after_call `{Host} (this : ThisValue) (jest : JestTestConfiguration)
    (received : string) (cfg : JestScreenshotConfiguration)
    (parameters : ToMatchImageSnapshotParameters) (w : World) :
  isJestTestConfiguration this = Some jest ->
  isNot jest = false ->
  _counters (snapshotState (toMatchImageSnapshot this received cfg parameters w).2)
  = <[currentTestName jest := nextSnapshotNumber (snapshotState w) (currentTestName jest)]>
      (_counters (snapshotState w)).
Proof.
  intros J N. unfold toMatchImageSnapshot. rewrite J, N. cbv beta iota.
  do 2 step.
  lazymatch goal with
  | |- _counters (snapshotState (?m ?w1).2) = _ =>
      assert (preserves _counters m) as P
  end.
  { preserve. }
  rewrite P. reflexivity.
Qed.

(** A usage error leaves the world as it was. *)
Lemma run_usage_error `{Host} (c : Call) (w : World) :
  countedName c = None -> run c w = w.
Proof.
  unfold countedName, run. intros E.
  destruct (isJestTestConfiguration (call_this c)) as [jest|] eqn:J.
  - destruct (isNot jest) eqn:N; [|discriminate].
    now rewrite (negated_throws _ jest _ _ _ _ J N).
  - now rewrite (outside_jest_throws _ _ _ _ _ J).
Qed.

Lemma run_counted `{Host} (c : Call) (w : World) (t : string) :
  countedName c = Some t ->
  _counters (snapshotState (run c w))
  = <[t := nextSnapshotNumber (snapshotState w) t]> (_counters (snapshotState w)).
Proof.
  unfold countedName, run. intros E.
  destruct (isJestTestConfiguration (call_this c)) as [jest|] eqn:J; [|discriminate].
  destruct (isNot jest) eqn:N; [discriminate|].
  injection E as <-. now apply counters_after_call.
Qed.

(** The indices under a name continue from the stored counter. *)
Lemma indices_from `{Host} (name : string) (calls : list Call) (w : World) :
  indices name calls w
  = map (fun i => or_zero (_counters (snapshotState w) !! name) + Z.of_nat i)
      (seq 1 (countCalls name calls)).
Proof.
  revert w. induction calls as [|c rest IH]; intros w; [reflexivity|].
  cbn [indices countCalls]. rewrite IH.
  destruct (countedName c) as [t|] eqn:E.
  - rewrite (run_counted c w t E).
    destruct (String.eqb_spec t name) as [->|Ne].
    + rewrite lookup_insert_eq, or_zero_Some. cbn [seq map].
      unfold nextSnapshotNumber. f_equal.
      rewrite <- (seq_shift (countCalls name rest) 1), map_map.
      apply map_ext. intros i. lia.
    + now rewrite lookup_insert_ne.
  - now rewrite (run_usage_error c w E).
Qed.

(** C8: a call that gets past the usage checks takes the stored counter
    of its test name plus one (zero when there is none) as its occurrence
    index and stores it back, touching no other name; so in any run of
    calls, from a state that has no counter for a name, the calls under
    that name get the indices 1, 2, 3, ... in order, whatever calls under
    other names come in between. *)
Theorem occurrence_indices `{Host} (this : ThisValue) (jest : JestTestConfiguration)
    (received : string) (cfg : JestScreenshotConfiguration)
    (parameters : ToMatchImageSnapshotParameters) (w : World) :
  isJestTestConfiguration this = Some jest ->
  isNot jest = false ->
  let name := currentTestName jest in
  let w' := (toMatchImageSnapshot this received cfg parameters w).2 in
  occurrence jest w = default 0 (_counters (snapshotState w) !! name) + 1
  /\ _counters (snapshotState w') !! name = Some (occurrence jest w)
  /\ (forall other, other <> name ->
        _counters (snapshotState w') !! other = _counters (snapshotState w) !! other)
  /\ (forall (calls : list Call) (start : World) (t : string),
        _counters (snapshotState start) !! t = None ->
        indices t calls start = map Z.of_nat (seq 1 (countCalls t calls))).
Proof.
  intros J N name w'.
  pose proof (counters_after_call this jest received cfg parameters w J N) as C.
  fold w' name in C. fold (occurrence jest w) in C.
  split; [|split; [|split]].
  - unfold occurrence, nextSnapshotNumber. fold name.
    destruct (_counters (snapshotState w) !! name) as [v|]; [|reflexivity].
    now rewrite or_zero_Some.
  - rewrite C. apply lookup_insert_eq.
  - intros other Ne. rewrite C. now apply lookup_insert_ne.
  - intros calls start t Absent. rewrite indices_from, Absent.
    apply map_ext. intros i. reflexivity.
Qed.

(** Two tests that each call the matcher twice, interleaved: both see the
    indices 1 and 2. *)
Lemma occurrence_indices_witness :
  let host := exampleHost (inr EmptyString) in
  let calls := [exampleCall "A"; exampleCall "B"; exampleCall "A"; exampleCall "B"] in
  let start := exampleWorld "new" ∅ in
  @indices host "A" calls start = [1; 2]
  /\ @indices host "B" calls start = [1; 2]
  /\ _counters (snapshotState (@run host (exampleCall "A") start)) !! "A" = Some 1.
Proof.
  intros host calls start.
  destruct (@occurrence_indices host (call_this (exampleCall "A"))
              {| testPath := "/repo/home.test.ts"; currentTestName := "A";
                 isNot := false |}
              "PNG" exampleConfiguration {| path := None |} start eq_refl eq_refl)
    as (_ & Stored & _ & Sequence).
  split; [|split].
  - rewrite (Sequence calls start "A" (lookup_empty _)). reflexivity.
  - rewrite (Sequence calls start "B" (lookup_empty _)). reflexivity.
  - exact Stored.
Defined.

(** The two usage errors on the example host: nothing is counted and no
    file is looked at. *)
Lemma usage_errors_throw_first_witness :
  let host := exampleHost (inr EmptyString) in
  let w := exampleWorld "all" ∅ in
  let negatedThis : option JestTestConfiguration :=
    Some {| testPath := "/repo/home.test.ts"; currentTestName := "home page";
            isNot := true |} in
  @toMatchImageSnapshot host None "PNG" exampleConfiguration {| path := None |} w
  = (Throw outsideJest, w)
  /\ @toMatchImageSnapshot host negatedThis "PNG" exampleConfiguration {| path := None |} w
     = (Throw negated, w).
Proof.
  intros host w negatedThis. split.
  - exact (proj1 (@usage_errors_throw_first host None "PNG" exampleConfiguration
                    {| path := None |} w) eq_refl).
  - exact (proj2 (@usage_errors_throw_first host negatedThis "PNG" exampleConfiguration
                    {| path := None |} w) _ eq_refl eq_refl).
Defined.

(** * Further properties of the code *)

(** ** Verdicts and what they carry *)

Lemma bind_throw {A B} (m : M A) (k : A -> M B) (w w' : World) (e : JsError) :
  m w = (Throw e, w') -> bind m k w = (Throw e, w').
Proof. intros E. unfold bind. now rewrite E. Qed.

(** What [checkImages] returns is the verdict on an outcome of [compare];
    what it throws, [compare] threw. *)
Lemma checkImages_inversion `{Host} (snapshotPath receivedPath diffPath : string) (n : Z)
    (cfg : JestScreenshotConfiguration) (w w' : World)
    (c : Completion ImageMatcherResult) :
  checkImages snapshotPath receivedPath diffPath n cfg w = (c, w') ->
  match c with
  | Normal r =>
      exists o, compare receivedPath snapshotPath diffPath (checkOptions cfg) w
                = (Normal o, w')
                /\ r = verdict n cfg o
  | Throw e =>
      compare receivedPath snapshotPath diffPath (checkOptions cfg) w = (Throw e, w')
  end.
Proof.
  rewrite checkImages_eq.
  destruct (compare receivedPath snapshotPath diffPath (checkOptions cfg) w)
    as [[o|e] w1]; intros E; injection E as <- <-; eauto.
Qed.

(** A verdict either is [{ pass: true }] or fails with a message and the
    two numbers of the outcome. *)
Lemma verdict_shape `{Host} (n : Z) (cfg : JestScreenshotConfiguration)
    (o : OdiffReturnType) :
  verdict n cfg o = passed
  \/ (pass (verdict n cfg o) = false
      /\ (exists produce, message (verdict n cfg o) = Some produce)
      /\ changedRelative (verdict n cfg o) = Some (diffPercentage o)
      /\ changedPixels (verdict n cfg o) = Some (diffCount o)).
Proof.
  rewrite verdict_policy.
  destruct (policy cfg o) as [[limit|limit|]|]; simpl; eauto 10.
Qed.

Lemma checkImages_passed `{Host} (snapshotPath receivedPath diffPath : string)
    (n : Z) (cfg : JestScreenshotConfiguration) (w w' : World) (r : ImageMatcherResult) :
  checkImages snapshotPath receivedPath diffPath n cfg w = (Normal r, w') ->
  pass r = true -> r = passed.
Proof.
  intros C. apply checkImages_inversion in C. destruct C as (o & _ & ->).
  destruct (verdict_shape n cfg o) as [P | (F & _)]; congruence.
Qed.

Lemma checkImages_failed `{Host} (snapshotPath receivedPath diffPath : string)
    (n : Z) (cfg : JestScreenshotConfiguration) (w w' : World) (r : ImageMatcherResult) :
  checkImages snapshotPath receivedPath diffPath n cfg w = (Normal r, w') ->
  pass r = false -> exists produce, message r = Some produce.
Proof.
  intros C. apply checkImages_inversion in C. destruct C as (o & _ & ->).
  destruct (verdict_shape n cfg o) as [P | (_ & M & _)]; [|intros _; exact M].
  rewrite P. discriminate.
Qed.

(** Every result of [checkImages] is consistent: a pass carries nothing
    else, a failure carries its explanation and the count and the
    percentage of the outcome it judged. *)
Theorem checkImages_result_shape `{Host} (snapshotPath receivedPath diffPath : string)
    (n : Z) (cfg : JestScreenshotConfiguration) (w w' : World) (r : ImageMatcherResult) :
  checkImages snapshotPath receivedPath diffPath n cfg w = (Normal r, w') ->
  (pass r = true -> r = passed)
  /\ (pass r = false ->
      exists o produce,
        compare receivedPath snapshotPath diffPath (checkOptions cfg) w = (Normal o, w')
        /\ message r = Some produce
        /\ changedRelative r = Some (diffPercentage o)
        /\ changedPixels r = Some (diffCount o)).
Proof.
  intros C. apply checkImages_inversion in C. destruct C as (o & C & ->).
  destruct (verdict_shape n cfg o) as [P | (F & (produce & Msg) & Rel & Pix)].
  - rewrite P. split; [reflexivity | discriminate].
  - split; [congruence|]. intros _. exists o, produce. auto.
Qed.

Lemma checkImages_result_shape_witness :
  let host := exampleHost (inl (exitError 22 "50;10")) in
  let cfg := with_thresholds (Some (JsNumber.of_Z 10)) None exampleConfiguration in
  let run := @checkImages host "snapshot.png" "received.png" "diff.png" 1 cfg
               (exampleWorld "none" ∅) in
  exists r, run.1 = Normal r
            /\ pass r = false
            /\ changedPixels r = Some (JsNumber.of_Z 50)
            /\ changedRelative r = Some (of_ratio false 1 10).
Proof.
  intros host cfg run.
  pose (o := {| match_ := false; reason := Some pixel_diff;
                diffCount := JsNumber.of_Z 50; diffPercentage := of_ratio false 1 10 |}).
  assert (run = (Normal (@verdict host 1 cfg o), run.2)) as R by reflexivity.
  destruct (@checkImages_result_shape host "snapshot.png" "received.png" "diff.png" 1 cfg
              (exampleWorld "none" ∅) run.2 (@verdict host 1 cfg o) R) as [_ F].
  exists (@verdict host 1 cfg o). repeat split.
Defined.

(** ** The comparison branch of the lifecycle *)

(** Brings both sides of a statement about a call to the same form. *)
Ltac normal_form :=
  repeat (progress unfold comparison, stagedReceivedPath, stagedDiffPath, stagedWorld,
            checkedWorld, temporaryDir, bundleDir, referencePath, countedState,
            occurrence, add_effect, set_files, set_snapshotState in * );
  cbn [files effects stderr snapshotState fst snd] in *;
  rewrite <- ?app_assoc in *;
  cbn [app] in *.

(** Runs a call whose reference exists up to the call of [checkImages]. *)
Ltac to_comparison J N Present :=
  unfold toMatchImageSnapshot; rewrite J, N; cbv beta iota;
  do 5 step;
  rewrite bool_decide_eq_true_2 by exact Present;
  cbv beta iota; unfold negb;
  do 2 step;
  normal_form.

(** The comparison passes: the call passes, and does nothing after the
    comparison; the totals stay as they were. *)
Theorem passing_comparison `{Host} (this : ThisValue) (jest : JestTestConfiguration)
    (received : string) (cfg : JestScreenshotConfiguration)
    (parameters : ToMatchImageSnapshotParameters) (w compared : World)
    (result : ImageMatcherResult) :
  isJestTestConfiguration this = Some jest ->
  isNot jest = false ->
  is_Some (files w !! referencePath jest cfg parameters w) ->
  comparison jest received cfg parameters w = (Normal result, compared) ->
  pass result = true ->
  toMatchImageSnapshot this received cfg parameters w = (Normal passed, compared)
  /\ snapshotState compared = countedState jest w
  /\ added (snapshotState compared) = added (snapshotState w)
  /\ updated (snapshotState compared) = updated (snapshotState w).
Proof.
  intros J N Present Check Passes.
  pose proof (preserves_checkImages (fun st => st)
                (referencePath jest cfg parameters w)
                (stagedReceivedPath jest cfg parameters w)
                (stagedDiffPath jest cfg parameters w)
                (occurrence jest w) cfg
                (stagedWorld jest received cfg parameters w)) as Kept.
  fold (comparison jest received cfg parameters w) in Kept.
  rewrite Check in Kept. cbn [snd stagedWorld snapshotState] in Kept.
  assert (result = passed) as -> by (now apply (checkImages_passed _ _ _ _ _ _ _ _ Check)).
  split; [|rewrite Kept; repeat split].
  to_comparison J N Present.
  erewrite bind_normal by exact Check. reflexivity.
Qed.

(** What the staged comparison leaves of the snapshot state and of the
    effects so far. *)
Lemma comparison_kept `{Host} (jest : JestTestConfiguration) (received : string)
    (cfg : JestScreenshotConfiguration) (parameters : ToMatchImageSnapshotParameters)
    (w compared : World) (c : Completion ImageMatcherResult) :
  comparison jest received cfg parameters w = (c, compared) ->
  snapshotState compared = countedState jest w
  /\ exists engine,
       effects compared
       = (effects w
          ++ [Mkdirp (path_dirname (referencePath jest cfg parameters w));
              ExistsSync (referencePath jest cfg parameters w);
              MkdtempSync (temporaryDir jest cfg parameters w);
              WriteFileSync (stagedReceivedPath jest cfg parameters w) received]
          ++ engine)%list
       /\ (engine = [] \/ exists command, engine = [ExecSync command]).
Proof.
  intros Check. split.
  - pose proof (preserves_checkImages (fun st => st)
                  (referencePath jest cfg parameters w)
                  (stagedReceivedPath jest cfg parameters w)
                  (stagedDiffPath jest cfg parameters w)
                  (occurrence jest w) cfg
                  (stagedWorld jest received cfg parameters w)) as Kept.
    fold (comparison jest received cfg parameters w) in Kept.
    now rewrite Check in Kept.
  - destruct (checkImages_effects (referencePath jest cfg parameters w)
                (stagedReceivedPath jest cfg parameters w)
                (stagedDiffPath jest cfg parameters w)
                (occurrence jest w) cfg
                (stagedWorld jest received cfg parameters w)) as (engine & E & Shape).
    fold (comparison jest received cfg parameters w) in E.
    rewrite Check in E. cbn [snd] in E.
    exists engine. split; [|exact Shape].
    rewrite E. unfold stagedWorld, checkedWorld, stagedReceivedPath. cbn [effects].
    rewrite <- !app_assoc. reflexivity.
Qed.

(** The engine fails: the call throws the error of the engine, the one
    [compare] rethrew; no verdict is returned, the totals stay as they were
    and nothing is written after the comparison. *)
Theorem engine_failure_propagates `{Host} (this : ThisValue) (jest : JestTestConfiguration)
    (received : string) (cfg : JestScreenshotConfiguration)
    (parameters : ToMatchImageSnapshotParameters) (w compared : World) (e : JsError) :
  isJestTestConfiguration this = Some jest ->
  isNot jest = false ->
  is_Some (files w !! referencePath jest cfg parameters w) ->
  comparison jest received cfg parameters w = (Throw e, compared) ->
  toMatchImageSnapshot this received cfg parameters w = (Throw e, compared)
  /\ compare (stagedReceivedPath jest cfg parameters w)
       (referencePath jest cfg parameters w) (stagedDiffPath jest cfg parameters w)
       (checkOptions cfg) (stagedWorld jest received cfg parameters w)
     = (Throw e, compared)
  /\ added (snapshotState compared) = added (snapshotState w)
  /\ updated (snapshotState compared) = updated (snapshotState w).
Proof.
  intros J N Present Check.
  destruct (comparison_kept _ _ _ _ _ _ _ Check) as [Kept _].
  split; [|split; [|rewrite Kept; split; reflexivity]].
  - to_comparison J N Present.
    erewrite bind_throw by exact Check. reflexivity.
  - exact (checkImages_inversion _ _ _ _ _ _ _ _ Check).
Qed.

(** The comparison fails, the update mode is not [all] and reports are
    suppressed: the call fails with the explanation of the verdict and
    does nothing after the comparison. *)
Theorem silent_failure `{Host} (this : ThisValue) (jest : JestTestConfiguration)
    (received : string) (cfg : JestScreenshotConfiguration)
    (parameters : ToMatchImageSnapshotParameters) (w compared : World)
    (result : ImageMatcherResult) :
  isJestTestConfiguration this = Some jest ->
  isNot jest = false ->
  is_Some (files w !! referencePath jest cfg parameters w) ->
  comparison jest received cfg parameters w = (Normal result, compared) ->
  pass result = false ->
  _updateSnapshot (snapshotState w) <> "all" ->
  noReport cfg = true ->
  toMatchImageSnapshot this received cfg parameters w
  = (Normal (handedBack result), compared)
  /\ pass (handedBack result) = false
  /\ (exists text, explanation (handedBack result) = Some text)
  /\ added (snapshotState compared) = added (snapshotState w)
  /\ updated (snapshotState compared) = updated (snapshotState w).
Proof.
  intros J N Present Check Fails NotAll Silent.
  destruct (comparison_kept _ _ _ _ _ _ _ Check) as [Kept _].
  destruct (checkImages_failed _ _ _ _ _ _ _ _ Check Fails) as [produce Msg].
  split; [|split; [exact Fails|split; [|rewrite Kept; split; reflexivity]]].
  - to_comparison J N Present.
    erewrite bind_normal by exact Check.
    rewrite Fails, Silent. cbv beta iota. unfold negb.
    rewrite (proj2 (String.eqb_neq _ _) NotAll).
    step. unfold ret, handedBack. now rewrite Fails.
  - exists (produce tt). unfold explanation, handedBack. cbn [message]. now rewrite Msg.
Qed.

Lemma bind_copyFileSync_present {B} (src dest data : string) (k : unit -> M B) (w : World) :
  files w !! src = Some data ->
  bind (copyFileSync src dest) k w
  = k tt (set_files (<[dest := data]> (files w)) (add_effect (CopyFileSync src dest) w)).
Proof. intros E. unfold bind, copyFileSync. now rewrite E. Qed.

Lemma bind_copyFileSync_missing {B} (src dest : string) (k : unit -> M B) (w : World) :
  files w !! src = None ->
  bind (copyFileSync src dest) k w
  = (Throw (copyError src dest), add_effect (CopyFileSync src dest) w).
Proof. intros E. unfold bind, copyFileSync. now rewrite E. Qed.

Lemma bind_assoc {A B C} (m : M A) (f : A -> M B) (g : B -> M C) (w : World) :
  bind (bind m f) g w = bind m (fun a => bind (f a) g) w.
Proof. unfold bind. now destruct (m w) as [[a|e] w']. Qed.

(** Runs a call whose comparison failed up to the copy of the diff mask. *)
Ltac to_report J N Present Check Fails NotAll Report :=
  to_comparison J N Present;
  erewrite bind_normal by exact Check;
  rewrite Fails, Report; cbv beta iota; unfold negb;
  rewrite (proj2 (String.eqb_neq _ _) NotAll);
  rewrite bind_assoc; cbv beta; step;
  rewrite bind_assoc; cbv beta; step.

(** The comparison fails, the update mode is not [all] and reports are
    not suppressed: the call creates the bundle directory, writes the
    received image, copies the diff mask and the reference into it and
    writes [info.json] with the text and the numbers of the verdict; then
    it fails with the explanation of the verdict.  The totals stay as they
    were. *)
Theorem failure_report `{Host} (this : ThisValue) (jest : JestTestConfiguration)
    (received : string) (cfg : JestScreenshotConfiguration)
    (parameters : ToMatchImageSnapshotParameters) (w compared : World)
    (result : ImageMatcherResult) (mask reference : string) :
  isJestTestConfiguration this = Some jest ->
  isNot jest = false ->
  is_Some (files w !! referencePath jest cfg parameters w) ->
  comparison jest received cfg parameters w = (Normal result, compared) ->
  pass result = false ->
  _updateSnapshot (snapshotState w) <> "all" ->
  noReport cfg = false ->
  let bundle := bundleDir jest cfg w in
  let withReceived := <[path_join bundle "received.png" := received]> (files compared) in
  withReceived !! stagedDiffPath jest cfg parameters w = Some mask ->
  let withMask := <[path_join bundle "diff.png" := mask]> withReceived in
  withMask !! referencePath jest cfg parameters w = Some reference ->
  exists text,
    explanation result = Some text
    /\ toMatchImageSnapshot this received cfg parameters w
       = (Normal (handedBack result),
          {| files :=
               <[path_join bundle "info.json"
                 := JSON_stringify (bundleInfo jest cfg w result text)]>
                 (<[path_join bundle "snapshot.png" := reference]> withMask);
             effects :=
               effects compared
               ++ [Mkdirp bundle;
                   WriteFileSync (path_join bundle "received.png") received;
                   CopyFileSync (stagedDiffPath jest cfg parameters w)
                     (path_join bundle "diff.png");
                   CopyFileSync (referencePath jest cfg parameters w)
                     (path_join bundle "snapshot.png");
                   WriteFileSync (path_join bundle "info.json")
                     (JSON_stringify (bundleInfo jest cfg w result text))];
             stderr := stderr compared;
             snapshotState := countedState jest w |})
    /\ pass (handedBack result) = false
    /\ Info.changedPixels (bundleInfo jest cfg w result text) = changedPixels result
    /\ Info.changedRelative (bundleInfo jest cfg w result text) = changedRelative result
    /\ Info.snapshotNumber (bundleInfo jest cfg w result text) = occurrence jest w.
Proof.
  intros J N Present Check Fails NotAll Report bundle withReceived Mask withMask Reference.
  destruct (comparison_kept _ _ _ _ _ _ _ Check) as [Kept _].
  destruct (checkImages_failed _ _ _ _ _ _ _ _ Check Fails) as [produce Msg].
  exists (produce tt).
  split; [unfold explanation; now rewrite Msg|].
  split; [|repeat split; exact Fails].
  subst bundle withReceived withMask.
  to_report J N Present Check Fails NotAll Report.
  rewrite bind_assoc. cbv beta.
  erewrite bind_copyFileSync_present by exact Mask.
  rewrite bind_assoc. cbv beta.
  erewrite bind_copyFileSync_present by exact Reference.
  rewrite Msg. unfold call_message.
  rewrite bind_assoc. cbv beta. do 2 step.
  unfold ret, handedBack, bundleInfo. normal_form.
  rewrite Fails, Kept, Msg. reflexivity.
Qed.

(** The same failure when the diff mask is not on disk: the copy of the
    mask throws, so the call throws the error of the copy instead of
    returning its verdict.  By then it has made the bundle directory and
    written the received image there; the reference is not copied and
    [info.json] is not written, so the files are the ones the comparison
    left, with the received image of this call among them, and whatever a
    bundle of an earlier run held stays as it was. *)
Theorem failure_report_without_mask `{Host} (this : ThisValue)
    (jest : JestTestConfiguration) (received : string)
    (cfg : JestScreenshotConfiguration) (parameters : ToMatchImageSnapshotParameters)
    (w compared : World) (result : ImageMatcherResult) :
  isJestTestConfiguration this = Some jest ->
  isNot jest = false ->
  is_Some (files w !! referencePath jest cfg parameters w) ->
  comparison jest received cfg parameters w = (Normal result, compared) ->
  pass result = false ->
  _updateSnapshot (snapshotState w) <> "all" ->
  noReport cfg = false ->
  let bundle := bundleDir jest cfg w in
  let withReceived := <[path_join bundle "received.png" := received]> (files compared) in
  withReceived !! stagedDiffPath jest cfg parameters w = None ->
  toMatchImageSnapshot this received cfg parameters w
  = (Throw (copyError (stagedDiffPath jest cfg parameters w)
              (path_join bundle "diff.png")),
     {| files := withReceived;
        effects :=
          effects compared
          ++ [Mkdirp bundle;
              WriteFileSync (path_join bundle "received.png") received;
              CopyFileSync (stagedDiffPath jest cfg parameters w)
                (path_join bundle "diff.png")];
        stderr := stderr compared;
        snapshotState := countedState jest w |})
  /\ (forall p, p <> path_join bundle "received.png" ->
      files (toMatchImageSnapshot this received cfg parameters w).2 !! p
      = files compared !! p).
Proof.
  intros J N Present Check Fails NotAll Report bundle withReceived Mask.
  destruct (comparison_kept _ _ _ _ _ _ _ Check) as [Kept _].
  assert (toMatchImageSnapshot this received cfg parameters w
          = (Throw (copyError (stagedDiffPath jest cfg parameters w)
                      (path_join bundle "diff.png")),
             {| files := withReceived;
                effects :=
                  effects compared
                  ++ [Mkdirp bundle;
                      WriteFileSync (path_join bundle "received.png") received;
                      CopyFileSync (stagedDiffPath jest cfg parameters w)
                        (path_join bundle "diff.png")];
                stderr := stderr compared;
                snapshotState := countedState jest w |})) as Run.
  { subst bundle withReceived.
    to_report J N Present Check Fails NotAll Report.
    rewrite bind_assoc. cbv beta.
    erewrite bind_copyFileSync_missing by exact Mask.
    normal_form. rewrite Kept. reflexivity. }
  split; [exact Run|].
  intros p Other. rewrite Run. cbn [snd files]. subst withReceived.
  now rewrite lookup_insert_ne.
Qed.

(** *** The branches on the example hosts *)

Lemma passing_comparison_witness :
  let host := exampleHost (inr EmptyString) in
  let r := @toMatchImageSnapshot host exampleThis "PNG" exampleConfiguration
             {| path := None |} (exampleStart "none") in
  r.1 = Normal passed
  /\ files r.2 !! exampleReference = Some "OLD"
  /\ added (snapshotState r.2) = 0 /\ updated (snapshotState r.2) = 0.
Proof.
  intros host r.
  pose (params := {| path := None |}).
  pose (w := exampleStart "none").
  pose (c := @comparison host exampleJest "PNG" exampleConfiguration params w).
  assert (is_Some (files w !! @referencePath host exampleJest exampleConfiguration params w))
    as Present by (exists "OLD"; vm_compute; reflexivity).
  assert (c = (Normal passed, c.2)) as Check by (vm_compute; reflexivity).
  destruct (@passing_comparison host exampleThis exampleJest "PNG" exampleConfiguration
              params w c.2 passed eq_refl eq_refl Present Check eq_refl)
    as (E & _ & A & U).
  assert (r = (Normal passed, c.2)) as R by exact E.
  clearbody r. subst r. cbn [fst snd].
  split; [reflexivity|]. split; [vm_compute; reflexivity|]. split; [exact A | exact U].
Defined.

Lemma engine_failure_propagates_witness :
  let host := exampleHost (inl (exitError 3 "boom")) in
  let r := @toMatchImageSnapshot host exampleThis "PNG" exampleConfiguration
             {| path := None |} (exampleStart "all") in
  r.1 = Throw (exitError 3 "boom")
  /\ files r.2 !! exampleReference = Some "OLD"
  /\ updated (snapshotState r.2) = 0.
Proof.
  intros host r.
  pose (params := {| path := None |}).
  pose (w := exampleStart "all").
  pose (c := @comparison host exampleJest "PNG" exampleConfiguration params w).
  assert (is_Some (files w !! @referencePath host exampleJest exampleConfiguration params w))
    as Present by (exists "OLD"; vm_compute; reflexivity).
  assert (c = (Throw (exitError 3 "boom"), c.2)) as Check by (vm_compute; reflexivity).
  destruct (@engine_failure_propagates host exampleThis exampleJest "PNG"
              exampleConfiguration params w c.2 (exitError 3 "boom")
              eq_refl eq_refl Present Check)
    as (E & _ & _ & U).
  assert (r = (Throw (exitError 3 "boom"), c.2)) as R by exact E.
  clearbody r. subst r. cbn [fst snd].
  split; [reflexivity|]. split; [vm_compute; reflexivity | exact U].
Defined.

Lemma silent_failure_witness :
  let host := exampleHost (inl (exitError 22 "50;10")) in
  let r := @toMatchImageSnapshot host exampleThis "PNG" (quiet tenPixels)
             {| path := None |} (exampleStart "none") in
  (exists result, r.1 = Normal result /\ pass result = false)
  /\ files r.2 !! exampleReference = Some "OLD"
  /\ size (files r.2) = 2%nat.
Proof.
  intros host r.
  pose (params := {| path := None |}).
  pose (w := exampleStart "none").
  pose (o := {| match_ := false; reason := Some pixel_diff;
                diffCount := JsNumber.of_Z 50; diffPercentage := of_ratio false 1 10 |}).
  pose (result := @absoluteFailure host 1 (JsNumber.of_Z 10) o).
  pose (c := @comparison host exampleJest "PNG" (quiet tenPixels) params w).
  assert (is_Some (files w !! @referencePath host exampleJest (quiet tenPixels) params w))
    as Present by (exists "OLD"; vm_compute; reflexivity).
  assert (c = (Normal result, c.2)) as Check by (vm_compute; reflexivity).
  assert (_updateSnapshot (snapshotState w) <> "all") as NotAll by discriminate.
  destruct (@silent_failure host exampleThis exampleJest "PNG" (quiet tenPixels)
              params w c.2 result eq_refl eq_refl Present Check eq_refl NotAll eq_refl)
    as (E & F & _).
  assert (r = (Normal (handedBack result), c.2)) as R by exact E.
  clearbody r. subst r. cbn [fst snd].
  split; [exists (handedBack result); split; [reflexivity | exact F]|].
  split; vm_compute; reflexivity.
Defined.

Lemma failure_report_witness :
  let host := diffingHost (inl (exitError 22 "50;10")) in
  let r := @toMatchImageSnapshot host exampleThis "PNG" tenPixels
             {| path := None |} (exampleStart "none") in
  let bundle := "jest-screenshot-report/reports/home page-1" in
  (exists result, r.1 = Normal result /\ pass result = false)
  /\ files r.2 !! (bundle ++ "/received.png") = Some "PNG"
  /\ files r.2 !! (bundle ++ "/diff.png") = Some "MASK"
  /\ files r.2 !! (bundle ++ "/snapshot.png") = Some "OLD"
  /\ is_Some (files r.2 !! (bundle ++ "/info.json"))
  /\ files r.2 !! exampleReference = Some "OLD".
Proof.
  intros host r bundle.
  pose (params := {| path := None |}).
  pose (w := exampleStart "none").
  pose (o := {| match_ := false; reason := Some pixel_diff;
                diffCount := JsNumber.of_Z 50; diffPercentage := of_ratio false 1 10 |}).
  pose (result := @absoluteFailure host 1 (JsNumber.of_Z 10) o).
  pose (c := @comparison host exampleJest "PNG" tenPixels params w).
  assert (is_Some (files w !! @referencePath host exampleJest tenPixels params w))
    as Present by (exists "OLD"; vm_compute; reflexivity).
  assert (c = (Normal result, c.2)) as Check by (vm_compute; reflexivity).
  assert (_updateSnapshot (snapshotState w) <> "all") as NotAll by discriminate.
  destruct (@failure_report host exampleThis exampleJest "PNG" tenPixels params w c.2
              result "MASK" "OLD" eq_refl eq_refl Present Check eq_refl NotAll eq_refl
              ltac:(vm_compute; reflexivity) ltac:(vm_compute; reflexivity))
    as (text & _ & E & F & _).
  match type of E with _ = ?rhs => assert (r = rhs) as R by exact E end.
  clearbody r. subst r. cbn [fst snd].
  split; [exists (handedBack result); split; [reflexivity | exact F]|].
  repeat split; try (vm_compute; reflexivity).
  eexists. vm_compute. reflexivity.
Defined.

Lemma failure_report_without_mask_witness :
  let host := exampleHost (inl (exitError 21 EmptyString)) in
  let r := @toMatchImageSnapshot host exampleThis "PNG" exampleConfiguration
             {| path := None |} (exampleStart "none") in
  r.1 = Throw (copyError "/tmp/jest-screenshot-odiff-abc123/diff.png"
                 "jest-screenshot-report/reports/home page-1/diff.png")
  /\ files r.2 !! "jest-screenshot-report/reports/home page-1/received.png" = Some "PNG"
  /\ files r.2 !! "jest-screenshot-report/reports/home page-1/info.json" = None.
Proof.
  intros host r.
  pose (params := {| path := None |}).
  pose (w := exampleStart "none").
  pose (result := @dimensionFailure host 1 layoutOutcome).
  pose (c := @comparison host exampleJest "PNG" exampleConfiguration params w).
  assert (is_Some (files w !! @referencePath host exampleJest exampleConfiguration params w))
    as Present by (exists "OLD"; vm_compute; reflexivity).
  assert (c = (Normal result, c.2)) as Check by (vm_compute; reflexivity).
  assert (_updateSnapshot (snapshotState w) <> "all") as NotAll by discriminate.
  pose proof (proj1 (@failure_report_without_mask host exampleThis exampleJest "PNG"
                exampleConfiguration params w c.2 result eq_refl eq_refl Present Check
                eq_refl NotAll eq_refl ltac:(vm_compute; reflexivity))) as E.
  match type of E with _ = ?rhs => assert (r = rhs) as R by exact E end.
  clearbody r. subst r. cbn [fst snd].
  split; [reflexivity|]. split; vm_compute; reflexivity.
Defined.

(** ** The totals and the update mode *)

Lemma changes_kept {A} (m : M A) (k : Z) :
  preserves (fun st => st) m -> 0 <= k -> changes k m.
Proof.
  intros P K w. pose proof (P w) as E. cbv beta in E.
  unfold totals_step. rewrite E. repeat split; try reflexivity; lia.
Qed.

Lemma changes_set_counter (name : string) (n k : Z) :
  0 <= k -> changes k (modify_snapshotState (set_counter name n)).
Proof. intros K w. unfold totals_step. cbn. repeat split; try reflexivity; lia. Qed.

Lemma changes_increment_added : changes 1 (modify_snapshotState increment_added).
Proof. intros w. unfold totals_step. cbn. repeat split; try reflexivity; lia. Qed.

Lemma changes_increment_updated : changes 1 (modify_snapshotState increment_updated).
Proof. intros w. unfold totals_step. cbn. repeat split; try reflexivity; lia. Qed.

Lemma changes_bind {A B} (m : M A) (f : A -> M B) (k1 k2 : Z) :
  0 <= k2 ->
  changes k1 m -> (forall a, changes k2 (f a)) -> changes (k1 + k2) (bind m f).
Proof.
  intros K Pm Pf w. unfold bind. specialize (Pm w).
  destruct (m w) as [[a|e] w1]; cbn [snd] in *.
  - specialize (Pf a w1). unfold totals_step in *.
    destruct Pm as (M1 & A1 & U1 & S1), Pf as (M2 & A2 & U2 & S2).
    repeat split; [congruence | lia | lia | lia].
  - unfold totals_step in *. destruct Pm as (M1 & A1 & U1 & S1).
    repeat split; try assumption. lia.
Qed.

(** A step that leaves the totals alone, then the rest. *)
Lemma changes_then {A B} (m : M A) (f : A -> M B) (k : Z) :
  0 <= k -> changes 0 m -> (forall a, changes k (f a)) -> changes k (bind m f).
Proof. intros K Pm Pf. change k with (0 + k). now apply changes_bind. Qed.

(** The one step that counts, then a rest that leaves the totals alone. *)
Lemma changes_once {A B} (m : M A) (f : A -> M B) :
  changes 1 m -> (forall a, changes 0 (f a)) -> changes 1 (bind m f).
Proof. intros Pm Pf. change 1 with (1 + 0). now apply changes_bind. Qed.

(** Steps and branches that leave the snapshot state as it is. *)
Ltac kept := apply changes_kept; [preserve | lia].

Ltac totals :=
  repeat first
    [ apply changes_increment_added
    | apply changes_increment_updated
    | solve [kept]
    | apply changes_set_counter; lia
    | apply changes_then; [lia | solve [kept] | intros ?]
    | apply changes_then; [lia | apply changes_set_counter; lia | intros ?]
    | apply changes_once; [|intros ?]
    | match goal with
      | |- changes _ (if ?c then _ else _) => destruct c
      | |- changes _ (match ?x with _ => _ end) => destruct x
      end ].

(** Whatever a call is given and however it ends, it leaves the update
    mode as it is, takes nothing off the totals of added and updated
    snapshots, and adds at most one to them together. *)
Theorem call_counts_once `{Host} (this : ThisValue) (received : string)
    (cfg : JestScreenshotConfiguration) (parameters : ToMatchImageSnapshotParameters)
    (w : World) :
  let after := snapshotState (toMatchImageSnapshot this received cfg parameters w).2 in
  _updateSnapshot after = _updateSnapshot (snapshotState w)
  /\ added (snapshotState w) <= added after
  /\ updated (snapshotState w) <= updated after
  /\ (added after - added (snapshotState w))
     + (updated after - updated (snapshotState w)) <= 1.
Proof.
  assert (changes 1 (toMatchImageSnapshot this received cfg parameters)) as C.
  { unfold toMatchImageSnapshot. totals. }
  exact (C w).
Qed.

(** ** The adapter: options, the error channel, and what is thrown *)

Lemma caught_channel `{Host} (e : JsError) (w : World) :
  match (caught e w).1 with
  | Normal _ => stderr (caught e w).2 = stderr w
  | Throw e' =>
      e' = e
      /\ stderr (caught e w).2 = (stderr w ++ diagnostics e)%list
      /\ status e <> Some 21 /\ status e <> Some 22
  end.
Proof.
  unfold caught.
  pose proof (eq_refl (status e)) as E. revert E.
  generalize (status e) at 2 3 4 5 6. intros s E.
  destruct s as [[|p|p]|]; cbn; try (repeat split; congruence).
  do 5 (try destruct p as [p|p|]; cbn; try (repeat split; congruence)).
Qed.

(** The adapter itself writes to the error channel exactly when it
    throws.  After an outcome it returns, the channel holds what it held
    and what the engine wrote to its standard error, which [execSync]
    forwards, and nothing of the adapter; an error it throws was described
    there after that (the header at least), and has neither of the two
    exit statuses that stand for a difference. *)
Theorem compare_error_channel `{Host} (a b diff : string) (options : OdiffOptions)
    (w : World) :
  let r := compare a b diff options w in
  let engine := engineStderr a b diff options w in
  match r.1 with
  | Normal _ => stderr r.2 = (stderr w ++ engine)%list
  | Throw e =>
      stderr r.2 = (stderr w ++ engine ++ diagnostics e)%list
      /\ (exists more,
            diagnostics e
            = ("Error executing odiff image comparison in " ++ dquote
               ++ "@craft.co/jest-screenshot-odiff" ++ dquote) :: more)
      /\ status e <> Some 21 /\ status e <> Some 22
  end.
Proof.
  cbv zeta. unfold compare, try_catch, engineStderr. rewrite compare_try_spec.
  assert (forall e w1 (engine : list string), stderr w1 = (stderr w ++ engine)%list ->
            match (caught e w1).1 with
            | Normal _ => stderr (caught e w1).2 = (stderr w ++ engine)%list
            | Throw e' =>
                stderr (caught e w1).2 = (stderr w ++ engine ++ diagnostics e')%list
                /\ (exists more,
                      diagnostics e'
                      = ("Error executing odiff image comparison in " ++ dquote
                         ++ "@craft.co/jest-screenshot-odiff" ++ dquote) :: more)
                /\ status e' <> Some 21 /\ status e' <> Some 22
            end) as Caught.
  { intros e w1 engine Same. pose proof (caught_channel e w1) as C.
    destruct ((caught e w1).1) as [o|e']; [congruence|].
    destruct C as (-> & S & N1 & N2). rewrite S, Same, <- app_assoc.
    split; [reflexivity|]. split; [|split; assumption].
    unfold diagnostics. cbn [app]. eauto. }
  destruct (require_resolve "odiff-bin") as [e|odiffPath].
  - rewrite compare_catch_caught. apply Caught. now rewrite app_nil_r.
  - cbv zeta. pose proof (ran_stderr (odiffCommand odiffPath a b diff options) w) as R.
    destruct ((execSync _ w).1) as [e|out]; [|exact R].
    rewrite compare_catch_caught. now apply Caught.
Qed.

(** An engine that warns on its standard error and finds a difference in
    the dimensions: the warning reaches the error channel, and the
    adapter adds nothing to it. *)
Example compare_forwards_warning :
  let run := @compare (warningHost (inl (exitError 21 EmptyString)) "warning")
               "received.png" "snapshot.png" "diff.png" exampleOptions
               (exampleWorld "none" ∅) in
  run.1 = Normal layoutOutcome /\ stderr run.2 = ["warning"].
Proof. split; reflexivity. Qed.

(** A falsy colour threshold (zero or NaN) and an empty diff colour are
    not handed to the binary: the run is the one without them. *)
Theorem falsy_options_dropped `{Host} (a b diff : string) (anti mask : bool)
    (t : number) (w : World) :
  truthy t = false ->
  odiffFlags {| antialiasing := anti; diffColor := Some EmptyString;
                threshold := Some t; outputDiffMask := mask |}
  = odiffFlags {| antialiasing := anti; diffColor := None;
                  threshold := None; outputDiffMask := mask |}
  /\ compare a b diff
       {| antialiasing := anti; diffColor := Some EmptyString;
          threshold := Some t; outputDiffMask := mask |} w
     = compare a b diff
         {| antialiasing := anti; diffColor := None;
            threshold := None; outputDiffMask := mask |} w
  /\ (forall snapshotPath receivedPath diffPath cfg,
        colorThreshold cfg = Some t ->
        forall cfg', colorThreshold cfg' = None ->
        detectAntialiasing cfg' = detectAntialiasing cfg ->
        compare receivedPath snapshotPath diffPath (checkOptions cfg) w
        = compare receivedPath snapshotPath diffPath (checkOptions cfg') w).
Proof.
  intros F.
  assert (forall anti' mask' c,
            (c = Some EmptyString \/ c = None) ->
            odiffFlags {| antialiasing := anti'; diffColor := c;
                          threshold := Some t; outputDiffMask := mask' |}
            = odiffFlags {| antialiasing := anti'; diffColor := None;
                            threshold := None; outputDiffMask := mask' |}) as Flags.
  { intros anti' mask' c [-> | ->]; unfold odiffFlags; cbn; now rewrite F. }
  split; [apply Flags; now left|].
  split.
  - unfold compare, compare_try. now rewrite Flags by now left.
  - intros sp rp dp cfg T cfg' T' A. unfold compare, compare_try, checkOptions.
    rewrite T, T', A. now rewrite Flags by now right.
Qed.

Lemma falsy_options_dropped_witness :
  let host := exampleHost (inr EmptyString) in
  truthy zero = false
  /\ @odiffFlags host {| antialiasing := true; diffColor := Some EmptyString;
                         threshold := Some zero; outputDiffMask := true |}
     = ["--parsable-stdout"; "--antialiasing"; "--diff-mask"]
  /\ @odiffFlags host {| antialiasing := true; diffColor := Some "#ff0000";
                         threshold := Some one; outputDiffMask := true |}
     = ["--parsable-stdout"; "--antialiasing"; "--diff-color=#ff0000";
        "--threshold=<number>"; "--diff-mask"].
Proof.
  intros host. split; [reflexivity|]. split; [|reflexivity].
  rewrite (proj1 (@falsy_options_dropped host "a" "b" "d" true true zero
                    (exampleWorld "none" ∅) eq_refl)).
  reflexivity.
Defined.

(** ** NaN in the verdict *)

Lemma gt_nan_l (x : number) : gt NaN x = false.
Proof. unfold gt, SFltb, SFcompare, NaN. now destruct x. Qed.

Lemma gt_nan_r (x : number) : gt x NaN = false.
Proof. reflexivity. Qed.

(** NaN decides nothing: a threshold that is NaN is a threshold that is
    not configured, and a count or a percentage that is NaN exceeds no
    threshold. *)
Theorem nan_decides_nothing `{Host} (n : Z) (cfg : JestScreenshotConfiguration)
    (o : OdiffReturnType) (T R : option number) :
  verdict n (with_thresholds (Some NaN) R cfg) o = verdict n (with_thresholds None R cfg) o
  /\ verdict n (with_thresholds T (Some NaN) cfg) o
     = verdict n (with_thresholds T None cfg) o
  /\ (diffCount o = NaN ->
      verdict n (with_thresholds T R cfg) o = verdict n (with_thresholds None R cfg) o)
  /\ (diffPercentage o = NaN ->
      verdict n (with_thresholds T R cfg) o = verdict n (with_thresholds T None cfg) o).
Proof.
  unfold verdict, exceeded.
  cbn [with_thresholds pixelThresholdAbsolute pixelThresholdRelative].
  repeat split.
  - intros ->. destruct T as [t|]; [now rewrite gt_nan_l | reflexivity].
  - intros ->. destruct R as [r|]; [now rewrite gt_nan_l | reflexivity].
Qed.



(** ** Reading the engine's output back *)

(** Doubling a positive number [k] times. *)
Lemma iter_double_Z p k : Pos.iter (Z.mul 2) (Zpos p) k = Zpos (Pos.iter xO p k).
Proof.
  induction k using Pos.peano_ind.
  - reflexivity.
  - rewrite !Pos.iter_succ, IHk. reflexivity.
Qed.

(** Euclidean division by one. *)
Lemma div_eucl_1 a : Z.div_eucl a 1 = (a, 0).
Proof.
  pose proof (Z.div_1_r a) as Q. pose proof (Z.mod_1_r a) as R.
  unfold Z.div, Z.modulo in Q, R.
  destruct (Z.div_eucl a 1) as [q r]. congruence.
Qed.

(** Rounding an exact mantissa of 54 bits whose last bit is clear. *)
Lemma round_even_mantissa q e :
  Zpos (digits2_pos q) = 53 -> -1074 <= e <= 971 ->
  binary_round_aux prec emax false (Zpos q~0) (e - 1) loc_Exact = S754_finite false q e.
Proof.
  intros Dq E. unfold binary_round_aux, shr_fexp.
  cbn [Zdigits2 digits2_pos]. rewrite Pos2Z.inj_succ, Dq.
  replace (fexp prec emax (Z.succ 53 + (e - 1)) - (e - 1)) with 1
    by (unfold fexp, emin, prec, emax; lia).
  cbn [shr shr_record_of_loc SpecFloat.iter_pos shr_1 orb loc_of_shr_record shr_m shr_r shr_s
       round_nearest_even Zdigits2].
  rewrite Dq.
  replace (fexp prec emax (53 + (e - 1 + 1)) - (e - 1 + 1)) with 0
    by (unfold fexp, emin, prec, emax; lia).
  cbn [shr shr_m].
  replace (e - 1 + 1) with e by lia.
  replace (e <=? emax - prec) with true; [reflexivity|].
  symmetry. apply Z.leb_le. unfold emax, prec. lia.
Qed.

(** Dividing by one: the double nearest to a small positive integer. *)
Lemma of_ratio_1 p : Zpos p < 2 ^ 53 -> of_ratio false p 1 = JsNumber.of_Z (Zpos p).
Proof.
  intros B. assert (Zpos (digits2_pos p) <= 53) as D by now apply digits2_small.
  rewrite (of_Z_pos p D).
  destruct (aligned_digits p D) as [Dm De].
  unfold of_ratio, SFdiv, SFdiv_core_binary.
  cbn [Zdigits2 digits2_pos xorb].
  replace (Z.min (fexp prec emax (Z.pos (digits2_pos p) + 0 - (1 + 0))) (0 - 0))
    with (Zpos (digits2_pos p) - 53 - 1)
    by (unfold fexp, emin, prec, emax; lia).
  unfold aligned, shl_align in *.
  destruct (Z.pos (digits2_pos p) - 53 - 0) as [|k|k] eqn:K; [| lia |];
    cbn [fst snd] in *.
  - replace (0 - 0 - (Z.pos (digits2_pos p) - 53 - 1)) with 1 by lia.
    change (Z.shiftl (Z.pos p) 1) with (Zpos p~0).
    rewrite div_eucl_1. change (new_location 1 0) with loc_Exact.
    apply round_even_mantissa; [assumption | lia].
  - replace (0 - 0 - (Z.pos (digits2_pos p) - 53 - 1)) with (Zpos (Pos.succ k)) by lia.
    change (Z.shiftl (Z.pos p) (Zpos (Pos.succ k)))
      with (Pos.iter (Z.mul 2) (Zpos p) (Pos.succ k)).
    rewrite iter_double_Z, Pos.iter_succ, div_eucl_1.
    change (new_location 1 0) with loc_Exact.
    apply round_even_mantissa; [assumption | lia].
Qed.

(** [digits] reads a printed decimal back, digits already read included. *)
Lemma digits_uint_acc d : forall a count,
  digits 10 (NilEmpty.string_of_uint d) (Zpos a) count
  = (Zpos (Pos.of_uint_acc d a), (count + nb_digits d)%nat, EmptyString).
Proof.
  induction d; intros a count; cbn [NilEmpty.string_of_uint digits nb_digits Pos.of_uint_acc];
    [f_equal; f_equal; lia| ..];
    (match goal with
     | |- context [digitValue 10 ?c] =>
         let v := eval vm_compute in (digitValue 10 c) in
         change (digitValue 10 c) with v
     end;
     cbv beta iota;
     match goal with
     | |- digits 10 _ ?acc _ = (Zpos (Pos.of_uint_acc _ ?q), _, _) =>
         replace acc with (Zpos q) by lia
     end;
     rewrite IHd; f_equal; f_equal; lia).
Qed.

(** [digits] reads a printed decimal back from nothing. *)
Lemma digits_uint d : forall count,
  digits 10 (NilEmpty.string_of_uint d) 0 count
  = (Z.of_N (Pos.of_uint d), (count + nb_digits d)%nat, EmptyString).
Proof.
  induction d; intros count; cbn [NilEmpty.string_of_uint digits nb_digits Pos.of_uint];
    [f_equal; f_equal; lia| ..];
    (match goal with
     | |- context [digitValue 10 ?c] =>
         let v := eval vm_compute in (digitValue 10 c) in
         change (digitValue 10 c) with v
     end;
     cbv beta iota).
  - change (0 * 10 + 0) with 0. rewrite IHd. f_equal; f_equal; lia.
  - change (0 * 10 + 1) with (Zpos 1). rewrite digits_uint_acc. f_equal; f_equal; lia.
  - change (0 * 10 + 2) with (Zpos 2). rewrite digits_uint_acc. f_equal; f_equal; lia.
  - change (0 * 10 + 3) with (Zpos 3). rewrite digits_uint_acc. f_equal; f_equal; lia.
  - change (0 * 10 + 4) with (Zpos 4). rewrite digits_uint_acc. f_equal; f_equal; lia.
  - change (0 * 10 + 5) with (Zpos 5). rewrite digits_uint_acc. f_equal; f_equal; lia.
  - change (0 * 10 + 6) with (Zpos 6). rewrite digits_uint_acc. f_equal; f_equal; lia.
  - change (0 * 10 + 7) with (Zpos 7). rewrite digits_uint_acc. f_equal; f_equal; lia.
  - change (0 * 10 + 8) with (Zpos 8). rewrite digits_uint_acc. f_equal; f_equal; lia.
  - change (0 * 10 + 9) with (Zpos 9). rewrite digits_uint_acc. f_equal; f_equal; lia.
Qed.

(** [parseInt] of a printed decimal is the double of its value. *)
Lemma parseInt_uint d : d <> Nil ->
  parseInt (NilEmpty.string_of_uint d) = decimal false (Z.of_N (Pos.of_uint d)) 0.
Proof.
  intros NN. pose proof (digits_uint d 0) as E.
  destruct d as [|d|d|d|d|d|d|d|d|d|d]; [contradiction| ..].
  1: destruct d.
  all: unfold parseInt; cbn [NilEmpty.string_of_uint trimStart] in *.
  all: match goal with
       | |- context [isWhiteSpace ?c] => change (isWhiteSpace c) with false
       end; cbv iota.
  all: cbn [sign]; rewrite E; reflexivity.
Qed.

(** Reading back a count that was printed in decimal. *)
Lemma parseInt_of_Z z : 0 <= z < 2 ^ 53 -> parseInt (JsString.of_Z z) = JsNumber.of_Z z.
Proof.
  intros [L U]. destruct z as [|p|p]; [reflexivity | | lia].
  unfold JsString.of_Z, NilZero.string_of_int. cbn [Z.to_int].
  unfold NilZero.string_of_uint.
  pose proof (Unsigned.to_uint_nonnil p) as NN.
  destruct (Pos.to_uint p) eqn:T; [contradiction| ..];
    rewrite <- T in *; rewrite parseInt_uint by assumption;
    rewrite Unsigned.of_to; unfold decimal; cbn [Z.of_N Z.leb Z.compare];
    change (Z.to_pos (10 ^ 0)) with 1%positive; rewrite Pos.mul_1_r;
    now apply of_ratio_1.
Qed.

(** A printed count is made of digits, which are field characters. *)
Lemma digit_isField (c : ascii) : isDecimalDigit c = true -> isField c = true.
Proof.
  destruct c as [[] [] [] [] [] [] [] []]; vm_compute; congruence.
Qed.

Lemma string_of_uint_digits (d : Decimal.uint) :
  all_chars isDecimalDigit (NilEmpty.string_of_uint d) = true.
Proof. induction d; cbn [NilEmpty.string_of_uint all_chars]; try reflexivity; now rewrite IHd. Qed.

Lemma of_Z_digits (z : Z) : 0 <= z -> all_chars isDecimalDigit (JsString.of_Z z) = true.
Proof.
  intros Z0. unfold JsString.of_Z. destruct z as [|p|p]; [reflexivity| |lia].
  cbn [Z.to_int NilZero.string_of_int].
  destruct (Pos.to_uint p) eqn:E; [reflexivity|..]; apply string_of_uint_digits.
Qed.

(** A field has no whitespace and no semicolon. *)
Lemma isField_solid (s : string) :
  all_chars isField s = true ->
  all_chars (fun c => negb (isWhiteSpace c)) s = true
  /\ all_chars (fun c => negb (Ascii.eqb c ";")) s = true.
Proof.
  intros F. split; (eapply all_chars_impl; [|exact F]); intros c C;
    unfold isField in C; apply andb_true_iff in C; tauto.
Qed.

(** Whitespace around two fields goes, and the separator splits them. *)
Lemma output_fields (lead a b ws : string) :
  all_chars isWhiteSpace lead = true ->
  all_chars isField a = true -> all_chars isField b = true ->
  all_chars isWhiteSpace ws = true ->
  split ";" (trim (lead ++ a ++ ";" ++ b ++ ws)) = [a; b].
Proof.
  intros L A B W.
  destruct (isField_solid a A) as [A1 A2], (isField_solid b B) as [B1 B2].
  unfold trim. rewrite trimStart_whitespace by assumption. fold (trim (a ++ ";" ++ b ++ ws)).
  replace (a ++ ";" ++ b ++ ws)%string with ((a ++ ";" ++ b) ++ ws)%string
    by (now rewrite !append_assoc).
  rewrite trim_solid; [now apply split_two| |assumption].
  rewrite !all_chars_app, A1, B1. reflexivity.
Qed.

(** The adapter reads the engine's output back exactly.  When the engine
    exits with 22 and its output, joined, is a count below 2^53 in decimal,
    a semicolon and a percentage field, with whitespace before and after,
    the outcome carries that very count and the hundredth of what
    [parseFloat] makes of the percentage field. *)
Theorem engine_output_decoded `{Host} (a b diff odiffPath : string) (options : OdiffOptions)
    (w : World) (e : JsError) (n : Z) (lead pct ws : string) :
  require_resolve "odiff-bin" = inr odiffPath ->
  (execSync (odiffCommand odiffPath a b diff options) w).1 = inl e ->
  status e = Some 22 ->
  join EmptyString (default [] (output e))
  = (lead ++ JsString.of_Z n ++ ";" ++ pct ++ ws)%string ->
  0 <= n < 2 ^ 53 ->
  all_chars isWhiteSpace lead = true ->
  all_chars isField pct = true ->
  all_chars isWhiteSpace ws = true ->
  (compare a b diff options w).1
  = Normal {| match_ := false; reason := Some pixel_diff;
              diffCount := JsNumber.of_Z n;
              diffPercentage := div (parseFloat pct) hundred |}.
Proof.
  intros Found Run Status Out N L P W.
  unfold compare, try_catch. rewrite compare_try_spec, Found. cbv zeta.
  rewrite Run, compare_catch_caught. unfold caught. rewrite Status.
  cbn [fst]. unfold pixelOutcome, outputFields. rewrite Out.
  rewrite output_fields;
    [|assumption
     |apply all_chars_impl with (1 := digit_isField), of_Z_digits; lia
     |assumption|assumption].
  cbn. now rewrite parseInt_of_Z.
Qed.

Lemma engine_output_decoded_witness :
  let host := exampleHost (inl (exitError 22 (" 1204;0.35" ++ newline))) in
  (@compare host "received.png" "snapshot.png" "diff.png" exampleOptions
     (exampleWorld "none" ∅)).1
  = Normal {| match_ := false; reason := Some pixel_diff;
              diffCount := JsNumber.of_Z 1204;
              diffPercentage := div (parseFloat "0.35") hundred |}.
Proof.
  intros host.
  apply (@engine_output_decoded host "received.png" "snapshot.png" "diff.png"
           "/repo/node_modules/odiff-bin/odiff.js" exampleOptions (exampleWorld "none" ∅)
           (exitError 22 (" 1204;0.35" ++ newline)) 1204 " " "0.35" newline);
    try reflexivity.
  lia.
Defined.
